(** * The dashboard client [static/app.js]: status poller, integrity
      analyzer and provenance formatting

    A shallow embedding of the decision logic of [static/app.js]:

    - the formatting helpers [fmtMoney], [escapeHtml], [moneyCell],
      [capexCell], [getCapexMethodTooltip] and [getSource];
    - the warning computation of [renderIntegrityWarnings];
    - the timer callback of [startPipelinePolling], run in a small world of
      timers, registry, DOM anchors and a trace of the calls it makes.

    JavaScript numbers are binary64 floats and are modelled by Rocq's
    primitive floats, which are the same IEEE 754 numbers with the same
    rounding.  Values read from JSON are typed as the data model has them
    (a metric array holds numbers and nulls, a status is a string), wrapped
    in [slot] wherever the code itself copes with [undefined] or [null].
    The revenue history, the one input the analyzer calls an array method
    on, is also given as any parsed value ([renderIntegrityWarnings_raw]). *)

From Stdlib Require Import PrimFloat FloatOps SpecFloat FloatAxioms.
From Stdlib Require Import Bool ZArith Ascii String.
From stdpp Require Import gmap strings list fin_maps pretty.

Set Warnings "-inexact-float".
Set Default Proof Using "Type".

Open Scope string_scope.

(** ** JavaScript values *)

(** What a property read or an index read can yield: [undefined] (no such
    property, index out of range), [null], or a value of the expected type. *)
Inductive slot (A : Type) : Type :=
  | Undefined
  | Null
  | Value (a : A).
Arguments Undefined {A}.
Arguments Null {A}.
Arguments Value {A} a.

(** [v == null] (loose): true of [null] and of [undefined]. *)
Definition nullish {A} (v : slot A) : bool :=
  match v with Value _ => false | _ => true end.

(** [v === null] (strict): true of [null] only. *)
Definition is_null {A} (v : slot A) : bool :=
  match v with Null => true | _ => false end.

(** [v || d] where [v], when present, is an array or an object (always
    truthy). *)
Definition or_default {A} (v : slot A) (d : A) : A :=
  match v with Value a => a | _ => d end.

(** Truthiness of a string-valued slot: [undefined], [null] and the empty
    string are falsy. *)
Definition truthy (v : slot string) : bool :=
  match v with
  | Value s => negb (String.eqb s EmptyString)
  | _ => false
  end.

(** [a || b] on string-valued slots. *)
Definition or_slot (a b : slot string) : slot string :=
  if truthy a then a else b.

(** [v === lit] for a string literal [lit]. *)
Definition is_str (v : slot string) (lit : string) : bool :=
  match v with Value s => String.eqb s lit | _ => false end.

(** [arr[i]]: the element, or [undefined] past the end. *)
Definition index {A} (arr : list (slot A)) (i : nat) : slot A :=
  match arr !! i with Some v => v | None => Undefined end.

(** [obj[k]] on an object used as a map from keys to strings (own
    properties, as [JSON.parse] creates them). *)
Definition prop (obj : gmap string string) (k : string) : slot string :=
  match obj !! k with Some v => Value v | None => Undefined end.

(** What a call can end in: a value, or a thrown [TypeError]. *)
Inductive result (A : Type) : Type :=
  | Ok (a : A)
  | Throw.
Arguments Ok {A} a.
Arguments Throw {A}.

(** The double quote character, for HTML attributes. *)
Definition dq : string := String (Ascii.ascii_of_nat 34) EmptyString.

(** [name="value"]. *)
Definition attr (name value : string) : string :=
  name ++ "=" ++ dq ++ value ++ dq.

(** ** A reference [Number.prototype.toFixed]

    [toFixed] is a built-in of the host; the model below takes the host as
    a parameter.  [toFixed_dec] is the built-in on every number of magnitude
    below 10^21 (the decimal expansion rounded half up at the requested
    digit) and on NaN and the infinities; examples are evaluated with it. *)

Definition round_half_up (num den : Z) : Z := ((2 * num + den) / (2 * den))%Z.

Definition scaled (x : float) (digits : nat) : option Z :=
  let p := (10 ^ Z.of_nat digits)%Z in
  match Prim2SF x with
  | S754_zero _ => Some 0%Z
  | S754_finite _ m e =>
      if (0 <=? e)%Z then Some (Z.pos m * 2 ^ e * p)%Z
      else Some (round_half_up (Z.pos m * p) (2 ^ (- e)))
  | _ => None
  end.

Fixpoint zeros (n : nat) : string :=
  match n with
  | O => EmptyString
  | S k => "0" ++ zeros k
  end.

(** [s] padded with zeros on the left to [width] characters. *)
Definition zero_pad (width : nat) (s : string) : string :=
  zeros (width - String.length s) ++ s.

Definition toFixed_dec (x : float) (digits : nat) : string :=
  match scaled x digits with
  | None =>
      if PrimFloat.eqb x x then (if PrimFloat.ltb x 0 then "-Infinity" else "Infinity")
      else "NaN"
  | Some n =>
      let p := (10 ^ Z.of_nat digits)%Z in
      let whole := pretty (Z.to_N (n / p)) in
      let frac := zero_pad digits (pretty (Z.to_N (n mod p))) in
      (if PrimFloat.ltb x 0 then "-" else "")
        ++ whole ++ (match digits with O => "" | _ => "." ++ frac end)
  end.

(** The members that every object literal inherits from
    [Object.prototype]: [obj[k]] finds them when [obj] has no own property
    [k]. *)
Definition object_prototype_members : list string :=
  [ "constructor"; "hasOwnProperty"; "isPrototypeOf"; "propertyIsEnumerable";
    "toLocaleString"; "toString"; "valueOf"; "__proto__";
    "__defineGetter__"; "__defineSetter__"; "__lookupGetter__";
    "__lookupSetter__" ].

(** The text of an inherited member as V8 prints it: the members are
    built-in functions, [constructor] is [Object], and [__proto__] yields
    the prototype object itself. *)
Definition memberText_v8 (name : string) : string :=
  if String.eqb name "__proto__" then "[object Object]"
  else "function " ++ (if String.eqb name "constructor" then "Object" else name)
         ++ "() { [native code] }".

(** The built-ins of the host that the client relies on. *)
Class Host : Type := {
  (** [x.toFixed(digits)] *)
  toFixed : float -> nat -> string;
  (** [String(Object.prototype[name])] for a member [name] of
      [Object.prototype]; the text of a built-in function is the host's. *)
  memberText : string -> string
}.

Definition reference_host : Host :=
  {| toFixed := toFixed_dec; memberText := memberText_v8 |}.

(** What [obj[k]] yields on an object literal whose own properties hold
    strings: the string of the own property [k], or the member of
    [Object.prototype] of that name. *)
Inductive looked_up : Type :=
  | OwnString (s : string)
  | Inherited (name : string).

Definition lookup_literal (obj : gmap string string) (k : string)
    : slot looked_up :=
  match obj !! k with
  | Some v => Value (OwnString v)
  | None =>
      if bool_decide (k ∈ object_prototype_members)
      then Value (Inherited k)
      else Undefined
  end.

(** ** Formatting helpers *)

Section Formatting.

Context `{Host}.

Definition fmtMoney (val : slot float) : string :=
  match val with
  | Undefined | Null => "--"
  | Value v =>
      if PrimFloat.eqb v 0 then "$0"
      else
        let abs := PrimFloat.abs v in
        let sign := if PrimFloat.ltb v 0 then "(" else "" in
        let end_ := if PrimFloat.ltb v 0 then ")" else "" in
        if PrimFloat.leb 1000 abs
        then sign ++ "$" ++ toFixed (abs / 1000)%float 1 ++ "M" ++ end_
        else sign ++ "$" ++ toFixed abs 0 ++ "K" ++ end_
  end.

(** [moneyCell(val, source)]: the marker is appended for the tag
    ['derived'] and for no other. *)
Definition moneyCell (val : slot float) (source : slot string) : string :=
  match val with
  | Undefined | Null => "<td>--</td>"
  | Value v =>
      let suffix :=
        if is_str source "derived"
        then " <span " ++ attr "class" "derived-tag" ++ ">(est.)</span>"
        else "" in
      if PrimFloat.ltb v 0
      then "<td " ++ attr "class" "negative" ++ ">" ++ fmtMoney val ++ suffix ++ "</td>"
      else "<td>" ++ fmtMoney val ++ suffix ++ "</td>"
  end.

(** The literal [tooltips] of [getCapexMethodTooltip]. *)
Definition generic_tooltip : string :=
  "Estimated value — not directly from document".

Definition tooltips : gmap string string :=
  <["derived:capex_revenue_ratio" := "Estimated using CapEx-to-Revenue ratio from known years"]>
  (<["derived:flat_last_known" := "Estimated using most recent known CapEx value (flat)"]>
  (<["derived:depreciation_ratio" := "Estimated as 25% of Depreciation (maintenance assumption)"]>
  (<["derived:industry_default" := "Estimated using 0.5% of Revenue industry default"]>
  (<["derived" := generic_tooltip]> ∅)))).

(** [tooltips[source] || '...']: the empty string is falsy, an inherited
    member (a function or the prototype object) is truthy. *)
Definition getCapexMethodTooltip (source : string) : looked_up :=
  match lookup_literal tooltips source with
  | Value (OwnString t) =>
      if String.eqb t EmptyString then OwnString generic_tooltip else OwnString t
  | Value (Inherited name) => Inherited name
  | _ => OwnString generic_tooltip
  end.

(** [`${tooltip}`]. *)
Definition tooltip_text (tooltip : looked_up) : string :=
  match tooltip with
  | OwnString t => t
  | Inherited name => memberText name
  end.

Definition capexCell (val : slot float) (source : slot string) : string :=
  match val with
  | Undefined | Null => "<td>--</td>"
  | Value v =>
      let formatted := fmtMoney val in
      if negb (truthy source) || is_str source "direct"
      then
        if PrimFloat.ltb v 0
        then "<td " ++ attr "class" "negative" ++ ">" ++ formatted ++ "</td>"
        else "<td>" ++ formatted ++ "</td>"
      else
        let tooltip := getCapexMethodTooltip (or_default source EmptyString) in
        let badge :=
          " <span " ++ attr "class" "derived-badge" ++ " "
            ++ attr "title" (tooltip_text tooltip) ++ ">(est.)</span>" in
        if PrimFloat.ltb v 0
        then "<td " ++ attr "class" "negative" ++ ">" ++ formatted ++ badge ++ "</td>"
        else "<td>" ++ formatted ++ badge ++ "</td>"
  end.

(** [getSource(sources, key, index)]. *)
Definition getSource (sources : slot (gmap string string))
    (key : string) (idx : nat) : slot string :=
  match sources with
  | Undefined | Null => Null
  | Value m =>
      or_slot (or_slot (prop m (key ++ "_" ++ pretty idx)) (prop m key)) Null
  end.

End Formatting.


(** ** The integrity analyzer *)

(** [ext.financials]: the metric arrays the analyzer reads. *)
Record Financials : Type := {
  net_revenue_hist : slot (list (slot float));
  gross_profit_hist : slot (list (slot float));
  sga_hist : slot (list (slot float));
  adj_ebitda_hist : slot (list (slot float));
  depreciation_hist : slot (list (slot float))
}.

(** The empty object [{}]. *)
Definition no_financials : Financials :=
  {| net_revenue_hist := Undefined; gross_profit_hist := Undefined;
     sga_hist := Undefined; adj_ebitda_hist := Undefined;
     depreciation_hist := Undefined |}.

Record Extraction : Type := {
  financials : slot Financials;
  _corrections_applied : slot (list string);
  _derivations_applied : slot (list string)
}.

Record Warning : Type := {
  level : string;
  message : string
}.

(** [warnings.push(w)]. *)
Definition push (warnings : list Warning) (w : Warning) : list Warning :=
  warnings ++ [w].

(** [for (let i = 0; i < n; i++) body], threading the array it pushes to. *)
Definition for_upto {S : Type} (n : nat) (body : S -> nat -> S) (init : S) : S :=
  fold_left body (seq 0 n) init.

Section Analyzer.

Context `{Host}.

Definition revenue_message (nullRevCount : nat) : string :=
  "Revenue missing for " ++ pretty nullRevCount
    ++ " of 3 historical year(s). Margins and growth rates cannot be calculated.".

Definition operating_income_message (i : nat) (oi ebitda_i : float) : string :=
  "Year " ++ pretty (i + 1) ++ ": Operating Income (" ++ fmtMoney (Value oi)
    ++ ") exceeds EBITDA (" ++ fmtMoney (Value ebitda_i)
    ++ ") — rows may be swapped".

Definition depreciation_message (i : nat) (dep_i ebitda_i : float) : string :=
  "Year " ++ pretty (i + 1) ++ ": Depreciation (" ++ fmtMoney (Value dep_i)
    ++ ") nearly equals EBITDA (" ++ fmtMoney (Value ebitda_i)
    ++ ") — likely a copy error".

Definition provenance_message (ncorr nderiv : nat) : string :=
  pretty ncorr ++ " auto-correction(s) and " ++ pretty nderiv
    ++ " derivation(s) applied".

(** Check 1: revenue completeness. *)
Definition check1 (revHist : list (slot float)) (warnings : list Warning)
    : list Warning :=
  let nullRevCount := length (List.filter is_null revHist) in
  if (0 <? nullRevCount)%nat
  then push warnings {| level := "error"; message := revenue_message nullRevCount |}
  else warnings.

(** Check 2, the body of the loop at index [i]. *)
Definition check2 (gp sga ebitda : list (slot float))
    (warnings : list Warning) (i : nat) : list Warning :=
  match index gp i, index sga i, index ebitda i with
  | Value gp_i, Value sga_i, Value ebitda_i =>
      let oi := (gp_i - sga_i)%float in
      if PrimFloat.ltb ebitda_i oi
      then push warnings
             {| level := "error";
                message := operating_income_message i oi ebitda_i |}
      else warnings
  | _, _, _ => warnings
  end.

(** Check 3, the body of the loop at index [i]. *)
Definition check3 (dep ebitda : list (slot float))
    (warnings : list Warning) (i : nat) : list Warning :=
  match index dep i, index ebitda i with
  | Value dep_i, Value ebitda_i =>
      if PrimFloat.ltb (PrimFloat.abs (dep_i - ebitda_i))
                       (PrimFloat.abs ebitda_i * 0.15)
      then push warnings
             {| level := "error";
                message := depreciation_message i dep_i ebitda_i |}
      else warnings
  | _, _ => warnings
  end.

(** Check 4: corrections and derivations applied upstream. *)
Definition check4 (corrections derivations : list string)
    (warnings : list Warning) : list Warning :=
  if (0 <? length corrections)%nat || (0 <? length derivations)%nat
  then push warnings
         {| level := "info";
            message := provenance_message (length corrections) (length derivations) |}
  else warnings.

(** [renderIntegrityWarnings(ext)] up to the point where [warnings] is
    complete; what follows in the source only writes it to the page.
    Reading [ext.financials] throws when [ext] itself is missing. *)
Definition renderIntegrityWarnings (ext : slot Extraction) : result (list Warning) :=
  match ext with
  | Undefined | Null => Throw
  | Value ext =>
      let warnings := [] in
      let f := or_default (financials ext) no_financials in
      let corrections := or_default (_corrections_applied ext) [] in
      let derivations := or_default (_derivations_applied ext) [] in
      let revHist := or_default (net_revenue_hist f) [] in
      let warnings := check1 revHist warnings in
      let gp := or_default (gross_profit_hist f) [] in
      let sga := or_default (sga_hist f) [] in
      let ebitda := or_default (adj_ebitda_hist f) [] in
      let warnings := for_upto 3 (check2 gp sga ebitda) warnings in
      let dep := or_default (depreciation_hist f) [] in
      let warnings := for_upto 3 (check3 dep ebitda) warnings in
      let warnings := check4 corrections derivations warnings in
      Ok warnings
  end.

End Analyzer.

(** ** The status poller *)

(** The body of [GET /api/documents/{id}/status]. *)
Record StatusData : Type := {
  ocr_status : slot string;
  extraction_status : slot string;
  error_message : slot string;
  extraction_error : slot string;
  company_name : slot string;
  filename : slot string
}.

(** What [await fetch(...)] followed by [await res.json()] ends in: a
    rejection (network error, body that is not JSON), or the parsed body,
    which is an object or [null]. *)
Inductive fetch_result : Type :=
  | FetchFailed
  | Body (data : slot StatusData).

(** [div.textContent = text; div.innerHTML]: the serialisation of a text
    node, which escapes ampersand, angle brackets and the no-break space
    (bytes 194 160 in UTF-8). *)
Fixpoint escape_text (text : string) : string :=
  match text with
  | EmptyString => EmptyString
  | String c rest =>
      if Ascii.eqb c "&"%char then "&amp;" ++ escape_text rest
      else if Ascii.eqb c "<"%char then "&lt;" ++ escape_text rest
      else if Ascii.eqb c ">"%char then "&gt;" ++ escape_text rest
      else
        match rest with
        | String c' rest' =>
            if Ascii.eqb c (Ascii.ascii_of_nat 194) && Ascii.eqb c' (Ascii.ascii_of_nat 160)
            then "&nbsp;" ++ escape_text rest'
            else String c (escape_text rest)
        | EmptyString => String c EmptyString
        end
  end.

Definition escapeHtml (text : slot string) : string :=
  if negb (truthy text) then EmptyString
  else escape_text (or_default text EmptyString).

(** The calls a timer callback makes that are visible outside it. *)
Inductive call : Type :=
  | SetInnerHTML (docId : nat) (html : string)
  | ClearInterval (id : nat)
  | DeletePoller (docId : nat)
  | LoadDashboard
  | ConsoleError (docId : nat).

(** The part of the page and of the host the poller acts on.  [anchors]
    maps a document id to the [innerHTML] of the [.file-size] span of its
    [#upload-status-<id>] element, for the elements in the document;
    [calls] records every call made, oldest first. *)
Record World : Type := {
  timers : gset nat;
  next_timer : nat;
  activePollers : gmap nat nat;
  anchors : gmap nat string;
  calls : list call
}.

Definition record (c : call) (w : World) : World :=
  {| timers := timers w; next_timer := next_timer w;
     activePollers := activePollers w; anchors := anchors w;
     calls := calls w ++ [c] |}.

(** Code that reads and writes the world and may throw. *)
Inductive outcome (A : Type) : Type :=
  | Normal (a : A)
  | Raised.
Arguments Normal {A} a.
Arguments Raised {A}.

Definition M (A : Type) : Type := World -> outcome A * World.

Definition ret {A} (a : A) : M A := fun w => (Normal a, w).

Definition bind {A B} (m : M A) (k : A -> M B) : M B :=
  fun w =>
    match m w with
    | (Normal a, w') => k a w'
    | (Raised, w') => (Raised, w')
    end.

Definition raise {A} : M A := fun w => (Raised, w).

(** [try { body } catch (err) { handler }]. *)
Definition try_catch (body handler : M unit) : M unit :=
  fun w =>
    match body w with
    | (Normal a, w') => (Normal a, w')
    | (Raised, w') => handler w'
    end.

#[global] Instance M_ret : MRet M := @ret.
#[global] Instance M_bind : MBind M := fun A B k m => bind m k.

(** [setInterval(callback, 3000)]: a live timer with a fresh handle. *)
Definition setInterval : M nat := fun w =>
  (Normal (next_timer w),
   {| timers := {[next_timer w]} ∪ timers w; next_timer := S (next_timer w);
      activePollers := activePollers w; anchors := anchors w;
      calls := calls w |}).

(** [clearInterval(id)]: the timer fires no more; no effect on a handle
    that is not live. *)
Definition clearInterval (id : nat) : M unit := fun w =>
  (Normal tt,
   record (ClearInterval id)
     {| timers := timers w ∖ {[id]}; next_timer := next_timer w;
        activePollers := activePollers w; anchors := anchors w;
        calls := calls w |}).

(** [activePollers[docId] = interval]. *)
Definition setPoller (docId interval : nat) : M unit := fun w =>
  (Normal tt,
   {| timers := timers w; next_timer := next_timer w;
      activePollers := <[docId := interval]> (activePollers w);
      anchors := anchors w; calls := calls w |}).

(** [delete activePollers[docId]]. *)
Definition deletePoller (docId : nat) : M unit := fun w =>
  (Normal tt,
   record (DeletePoller docId)
     {| timers := timers w; next_timer := next_timer w;
        activePollers := delete docId (activePollers w);
        anchors := anchors w; calls := calls w |}).

(** [document.getElementById(`upload-status-${docId}`)], as the truth
    value the callback tests. *)
Definition getElementById (docId : nat) : M bool := fun w =>
  (Normal (bool_decide (is_Some (anchors w !! docId))), w).

(** [ss.innerHTML = html] on the [.file-size] span of the anchor. *)
Definition setInnerHTML (docId : nat) (html : string) : M unit := fun w =>
  (Normal tt,
   record (SetInnerHTML docId html)
     {| timers := timers w; next_timer := next_timer w;
        activePollers := activePollers w;
        anchors := <[docId := html]> (anchors w); calls := calls w |}).

(** [loadDashboard()]: the refresh of the aggregate statistics; only the
    call is recorded. *)
Definition loadDashboard : M unit := fun w => (Normal tt, record LoadDashboard w).

(** [console.error(`Polling error for doc ${docId}:`, err)]. *)
Definition consoleError (docId : nat) : M unit := fun w =>
  (Normal tt, record (ConsoleError docId) w).

(** A property read on the parsed body: throws on [null]. *)
Definition member (data : slot StatusData) : M StatusData :=
  match data with
  | Value d => mret d
  | _ => raise
  end.

Definition await (r : fetch_result) : M (slot StatusData) :=
  match r with
  | FetchFailed => raise
  | Body data => mret data
  end.

Definition spinner : string := "<span " ++ attr "class" "spinner" ++ "></span>".

Definition stage1_html : string :=
  spinner ++ " <strong>Stage 1/2:</strong> Extracting text from PDF...".

Definition ocr_failed_html (d : StatusData) : string :=
  "<span " ++ attr "style" "color:#ef4444;" ++ ">&#10007; OCR Failed: "
    ++ escapeHtml (or_slot (error_message d) (Value "Unknown")) ++ "</span>".

Definition stage2_analyzing_html : string :=
  spinner ++ " <strong>Stage 2/2:</strong> AI analyzing financials...".

Definition complete_html (d : StatusData) : string :=
  "<span " ++ attr "style" "color:#22c55e;" ++ ">&#10003; Analysis Complete &mdash; "
    ++ escapeHtml (or_slot (company_name d) (filename d)) ++ "</span>".

Definition extraction_failed_html (d : StatusData) : string :=
  "<span " ++ attr "style" "color:#eab308;"
    ++ ">&#9888; OCR done but extraction failed: "
    ++ escapeHtml (or_slot (extraction_error d) (Value "Unknown")) ++ "</span>".

Definition stage2_starting_html : string :=
  spinner ++ " <strong>Stage 2/2:</strong> Starting AI extraction...".

(** [clearInterval(interval); delete activePollers[docId]; loadDashboard();] *)
Definition stop_and_refresh (docId interval : nat) : M unit :=
  clearInterval interval ;; deletePoller docId ;; loadDashboard.

(** The second [if] chain of the callback (extraction stage). *)
Definition extraction_chain (docId interval : nat) (d : StatusData) : M unit :=
  if is_str (ocr_status d) "completed" && is_str (extraction_status d) "processing"
  then setInnerHTML docId stage2_analyzing_html
  else if is_str (extraction_status d) "completed"
  then setInnerHTML docId (complete_html d) ;; stop_and_refresh docId interval
  else if is_str (extraction_status d) "failed"
  then setInnerHTML docId (extraction_failed_html d) ;; stop_and_refresh docId interval
  else if is_str (ocr_status d) "completed"
          && (negb (truthy (extraction_status d))
              || is_str (extraction_status d) "pending")
  then setInnerHTML docId stage2_starting_html
  else mret tt.

(** The timer callback of [startPipelinePolling], from the moment the
    response [r] of its fetch is in.  A [return] ends the branch it stands
    in. *)
Definition poll_tick (docId interval : nat) (r : fetch_result) : M unit :=
  try_catch
    (data ← await r;
     el ← getElementById docId;
     if negb el then clearInterval interval
     else
       d ← member data;
       if is_str (ocr_status d) "processing"
       then setInnerHTML docId stage1_html ;; extraction_chain docId interval d
       else if is_str (ocr_status d) "failed"
       then setInnerHTML docId (ocr_failed_html d) ;; stop_and_refresh docId interval
       else extraction_chain docId interval d)
    (consoleError docId).

(** [startPipelinePolling(docId)]: returns the handle of the timer. *)
Definition startPipelinePolling (docId : nat) : M nat :=
  interval ← setInterval;
  setPoller docId interval ;;
  mret interval.

(** *** The life of one poller

    The timer fires every three seconds whether or not earlier requests
    were answered, so several requests of one poller can be in flight; the
    callback resumes once per answer.  [clearInterval] stops the timer and
    leaves the requests in flight alone. *)
Inductive event : Type :=
  | TimerFires
  | ResponseArrives (r : fetch_result)
  | AnchorRemoved.

Record PollerState : Type := {
  world : World;
  in_flight : nat
}.

Definition remove_anchor (docId : nat) (w : World) : World :=
  {| timers := timers w; next_timer := next_timer w;
     activePollers := activePollers w; anchors := delete docId (anchors w);
     calls := calls w |}.

Definition step (docId interval : nat) (s : PollerState) (e : event)
    : option PollerState :=
  match e with
  | TimerFires =>
      if bool_decide (interval ∈ timers (world s))
      then Some {| world := world s; in_flight := S (in_flight s) |}
      else None
  | ResponseArrives r =>
      match in_flight s with
      | O => None
      | S n =>
          Some {| world := snd (poll_tick docId interval r (world s));
                  in_flight := n |}
      end
  | AnchorRemoved =>
      Some {| world := remove_anchor docId (world s); in_flight := in_flight s |}
  end.

Fixpoint run (docId interval : nat) (s : PollerState) (evs : list event)
    : option PollerState :=
  match evs with
  | [] => Some s
  | e :: evs' =>
      match step docId interval s e with
      | Some s' => run docId interval s' evs'
      | None => None
      end
  end.

(** No timer firing while a request is still unanswered, starting with
    [n] requests in flight. *)
Fixpoint answered_in_turn (n : nat) (evs : list event) : bool :=
  match evs with
  | [] => true
  | TimerFires :: evs' => bool_decide (n = 0) && answered_in_turn 1 evs'
  | ResponseArrives _ :: evs' => answered_in_turn (Nat.pred n) evs'
  | AnchorRemoved :: evs' => answered_in_turn n evs'
  end.

(** The number of [loadDashboard()] calls made so far. *)
Definition is_refresh (c : call) : bool :=
  match c with LoadDashboard => true | _ => false end.

Definition refreshes (w : World) : nat := length (List.filter is_refresh (calls w)).

(** The number of [innerHTML] writes made so far. *)
Definition is_write (c : call) : bool :=
  match c with SetInnerHTML _ _ => true | _ => false end.

Definition label_writes (w : World) : nat := length (List.filter is_write (calls w)).

(** ** Views used to state the properties *)

(** A table cell around [body], flagged negative as the cells do. *)
Definition td (v : float) (body : string) : string :=
  if PrimFloat.ltb v 0
  then "<td " ++ attr "class" "negative" ++ ">" ++ body ++ "</td>"
  else "<td>" ++ body ++ "</td>".

(** The marker of [moneyCell] and the badge of [capexCell]. *)
Definition derived_tag : string :=
  " <span " ++ attr "class" "derived-tag" ++ ">(est.)</span>".

Definition derived_badge (tooltip : string) : string :=
  " <span " ++ attr "class" "derived-badge" ++ " " ++ attr "title" tooltip
    ++ ">(est.)</span>".

(** The five keys of [tooltips]. *)
Definition tooltip_keys : list string :=
  [ "derived:capex_revenue_ratio"; "derived:flat_last_known";
    "derived:depreciation_ratio"; "derived:industry_default"; "derived" ].

(** The arrays the analyzer binds, and what each rule pushes on its own
    (the rule run on an empty [warnings]). *)
Section AnalyzerViews.

Context `{Host}.

Definition fin_of (e : Extraction) : Financials :=
  or_default (financials e) no_financials.
Definition revHist_of (e : Extraction) := or_default (net_revenue_hist (fin_of e)) [].
Definition gp_of (e : Extraction) := or_default (gross_profit_hist (fin_of e)) [].
Definition sga_of (e : Extraction) := or_default (sga_hist (fin_of e)) [].
Definition ebitda_of (e : Extraction) := or_default (adj_ebitda_hist (fin_of e)) [].
Definition dep_of (e : Extraction) := or_default (depreciation_hist (fin_of e)) [].
Definition corrections_of (e : Extraction) := or_default (_corrections_applied e) [].
Definition derivations_of (e : Extraction) := or_default (_derivations_applied e) [].

Definition rule1 (e : Extraction) : list Warning := check1 (revHist_of e) [].

Definition rule2_at (e : Extraction) (i : nat) : list Warning :=
  check2 (gp_of e) (sga_of e) (ebitda_of e) [] i.

Definition rule2 (e : Extraction) : list Warning :=
  rule2_at e 0 ++ rule2_at e 1 ++ rule2_at e 2.

Definition rule3_at (e : Extraction) (i : nat) : list Warning :=
  check3 (dep_of e) (ebitda_of e) [] i.

Definition rule3 (e : Extraction) : list Warning :=
  rule3_at e 0 ++ rule3_at e 1 ++ rule3_at e 2.

Definition rule4 (e : Extraction) : list Warning :=
  check4 (corrections_of e) (derivations_of e) [].

(** [viewAnalysis] around its call of the analyzer: it returns before the
    call when [data.extraction] is missing. *)
Definition viewAnalysis_warnings (extraction : slot Extraction)
    : result (option (list Warning)) :=
  match extraction with
  | Undefined | Null => Ok None
  | Value _ =>
      match renderIntegrityWarnings extraction with
      | Ok ws => Ok (Some ws)
      | Throw => Throw
      end
  end.

End AnalyzerViews.

(** ** The analyzer on a revenue field of any shape

    Of its inputs the analyzer calls a method on one only:
    [revHist.filter], where [revHist] is [f.net_revenue_hist || []].  The
    other arrays are indexed and their entries compared and subtracted,
    which a number or a null always allows.  Below, [net_revenue_hist]
    holds any value that [JSON.parse] can deliver, the other inputs are
    typed as the data model has them. *)

(** A parsed JSON value, or [undefined]. *)
#[warnings="-register-all"] Inductive js : Type :=
  | JUndefined
  | JNull
  | JBool (b : bool)
  | JNum (x : float)
  | JStr (s : string)
  | JArr (items : list js)
  | JObj (fields : list (string * js)).

(** Truthiness: [undefined], [null], [false], [0], [-0], [NaN] and the
    empty string are falsy; arrays and objects are truthy. *)
Definition truthy_js (v : js) : bool :=
  match v with
  | JUndefined | JNull => false
  | JBool b => b
  | JNum x => negb (PrimFloat.eqb x 0) && PrimFloat.eqb x x
  | JStr s => negb (String.eqb s EmptyString)
  | JArr _ | JObj _ => true
  end.

(** [a || b]. *)
Definition or_js (a b : js) : js := if truthy_js a then a else b.

(** [v === null]. *)
Definition is_JNull (v : js) : bool :=
  match v with JNull => true | _ => false end.

Definition is_array (v : js) : bool :=
  match v with JArr _ => true | _ => false end.

(** [revHist.filter(v => v === null).length].  [filter] is a method of
    arrays.  On a string, a number or a boolean [revHist.filter] is
    [undefined]; on an object it is [undefined] or, for an own property
    of that name, a parsed value; none of them can be called, and the call
    throws a [TypeError]. *)
Definition null_count (revHist : js) : result nat :=
  match revHist with
  | JArr items => Ok (length (List.filter is_JNull items))
  | _ => Throw
  end.

Record RawFinancials : Type := {
  raw_net_revenue_hist : js;
  raw_gross_profit_hist : slot (list (slot float));
  raw_sga_hist : slot (list (slot float));
  raw_adj_ebitda_hist : slot (list (slot float));
  raw_depreciation_hist : slot (list (slot float))
}.

(** The empty object [{}]. *)
Definition no_raw_financials : RawFinancials :=
  {| raw_net_revenue_hist := JUndefined; raw_gross_profit_hist := Undefined;
     raw_sga_hist := Undefined; raw_adj_ebitda_hist := Undefined;
     raw_depreciation_hist := Undefined |}.

Record RawExtraction : Type := {
  raw_financials : slot RawFinancials;
  raw_corrections_applied : slot (list string);
  raw_derivations_applied : slot (list string)
}.

Section RawAnalyzer.

Context `{Host}.

(** [renderIntegrityWarnings(ext)] up to the point where [warnings] is
    complete, with [f.net_revenue_hist] as it comes. *)
Definition renderIntegrityWarnings_raw (ext : slot RawExtraction)
    : result (list Warning) :=
  match ext with
  | Undefined | Null => Throw
  | Value ext =>
      let warnings := [] in
      let f := or_default (raw_financials ext) no_raw_financials in
      let corrections := or_default (raw_corrections_applied ext) [] in
      let derivations := or_default (raw_derivations_applied ext) [] in
      let revHist := or_js (raw_net_revenue_hist f) (JArr []) in
      match null_count revHist with
      | Throw => Throw
      | Ok nullRevCount =>
          let warnings :=
            if (0 <? nullRevCount)%nat
            then push warnings
                   {| level := "error"; message := revenue_message nullRevCount |}
            else warnings in
          let gp := or_default (raw_gross_profit_hist f) [] in
          let sga := or_default (raw_sga_hist f) [] in
          let ebitda := or_default (raw_adj_ebitda_hist f) [] in
          let warnings := for_upto 3 (check2 gp sga ebitda) warnings in
          let dep := or_default (raw_depreciation_hist f) [] in
          let warnings := for_upto 3 (check3 dep ebitda) warnings in
          let warnings := check4 corrections derivations warnings in
          Ok warnings
      end
  end.

End RawAnalyzer.

(** [f.net_revenue_hist] of an extraction. *)
Definition raw_revenue_of (ext : RawExtraction) : js :=
  raw_net_revenue_hist (or_default (raw_financials ext) no_raw_financials).

(** A typed entry, field and extraction as parsed values. *)
Definition js_of_entry (v : slot float) : js :=
  match v with
  | Undefined => JUndefined
  | Null => JNull
  | Value x => JNum x
  end.

Definition js_of_history (field : slot (list (slot float))) : js :=
  match field with
  | Undefined => JUndefined
  | Null => JNull
  | Value entries => JArr (js_of_entry <$> entries)
  end.

Definition raw_of_financials (f : Financials) : RawFinancials :=
  {| raw_net_revenue_hist := js_of_history (net_revenue_hist f);
     raw_gross_profit_hist := gross_profit_hist f;
     raw_sga_hist := sga_hist f;
     raw_adj_ebitda_hist := adj_ebitda_hist f;
     raw_depreciation_hist := depreciation_hist f |}.

Definition raw_of (e : Extraction) : RawExtraction :=
  {| raw_financials :=
       match financials e with
       | Undefined => Undefined
       | Null => Null
       | Value f => Value (raw_of_financials f)
       end;
     raw_corrections_applied := _corrections_applied e;
     raw_derivations_applied := _derivations_applied e |}.

(** The inputs of rules 2 to 4 of a raw extraction. *)
Definition metrics_of (ext : RawExtraction) : Extraction :=
  {| financials :=
       match raw_financials ext with
       | Undefined => Undefined
       | Null => Null
       | Value f =>
           Value {| net_revenue_hist := Undefined;
                    gross_profit_hist := raw_gross_profit_hist f;
                    sga_hist := raw_sga_hist f;
                    adj_ebitda_hist := raw_adj_ebitda_hist f;
                    depreciation_hist := raw_depreciation_hist f |}
       end;
     _corrections_applied := raw_corrections_applied ext;
     _derivations_applied := raw_derivations_applied ext |}.

(** Number of explicit nulls among the first three entries. *)
Definition nulls_in_first3 (revHist : list (slot float)) : nat :=
  length (List.filter is_null (take 3 revHist)).

(** A metric array of numbers. *)
Definition nums (l : list float) : slot (list (slot float)) := Value (Value <$> l).

(** *** The stage precedence of the specification

    The seven cases in the order the specification lists them, first match
    wins; [absent] is a missing, null or empty status. *)
Inductive stage : Type :=
  | Stage1Extracting
  | OcrFailed
  | Stage2Analyzing
  | AnalysisComplete
  | ExtractionFailed
  | Stage2Starting
  | NoChange.

Definition stage_by_precedence (d : StatusData) : stage :=
  if is_str (ocr_status d) "processing" then Stage1Extracting
  else if is_str (ocr_status d) "failed" then OcrFailed
  else if is_str (ocr_status d) "completed"
          && is_str (extraction_status d) "processing" then Stage2Analyzing
  else if is_str (extraction_status d) "completed" then AnalysisComplete
  else if is_str (extraction_status d) "failed" then ExtractionFailed
  else if is_str (ocr_status d) "completed"
          && (negb (truthy (extraction_status d))
              || is_str (extraction_status d) "pending") then Stage2Starting
  else NoChange.

(** What the specification has a case do: write its label and, for the
    three terminal cases, stop the poller and refresh the statistics. *)
Definition stage_action (docId interval : nat) (d : StatusData) (s : stage)
    : M unit :=
  match s with
  | Stage1Extracting => setInnerHTML docId stage1_html
  | OcrFailed =>
      setInnerHTML docId (ocr_failed_html d) ;; stop_and_refresh docId interval
  | Stage2Analyzing => setInnerHTML docId stage2_analyzing_html
  | AnalysisComplete =>
      setInnerHTML docId (complete_html d) ;; stop_and_refresh docId interval
  | ExtractionFailed =>
      setInnerHTML docId (extraction_failed_html d) ;; stop_and_refresh docId interval
  | Stage2Starting => setInnerHTML docId stage2_starting_html
  | NoChange => mret tt
  end.

(** The three terminal observations. *)
Definition terminal (d : StatusData) : bool :=
  is_str (ocr_status d) "failed"
  || is_str (extraction_status d) "completed"
  || is_str (extraction_status d) "failed".

(** A body that reports OCR in progress together with a finished
    extraction stage. *)
Definition processing_but_finished (d : StatusData) : bool :=
  is_str (ocr_status d) "processing"
  && (is_str (extraction_status d) "completed"
      || is_str (extraction_status d) "failed").

(** The number of [clearInterval(id)] calls made so far. *)
Definition is_clear (id : nat) (c : call) : bool :=
  match c with ClearInterval id' => bool_decide (id' = id) | _ => false end.

Definition clears (id : nat) (w : World) : nat :=
  length (List.filter (is_clear id) (calls w)).

(** ** Sample inputs *)

Definition status (ocr ext : slot string) : StatusData :=
  {| ocr_status := ocr; extraction_status := ext;
     error_message := Undefined; extraction_error := Undefined;
     company_name := Value "Acme Corp"; filename := Value "acme.pdf" |}.

(** A page with the anchor of document 7, before its poller is started. *)
Definition upload_page : World :=
  {| timers := ∅; next_timer := 1; activePollers := ∅;
     anchors := {[ 7 := "<span " ++ attr "class" "spinner" ++ "></span> OCR Processing..." ]};
     calls := [] |}.

(** The same page once [startPipelinePolling(7)] has run: timer 1 is live
    and registered for document 7. *)
Definition polling_page : World := snd (startPipelinePolling 7 upload_page).

(** The page after the user has uploaded again: the anchor of document 7
    is gone, its poller still runs. *)
Definition abandoned_page : World := remove_anchor 7 polling_page.

Definition poller_at (w : World) : PollerState := {| world := w; in_flight := 0 |}.

Definition still_processing : StatusData := status (Value "processing") Undefined.
Definition finished : StatusData := status (Value "completed") (Value "completed").

(** Two ticks, each answered before the next: OCR in progress, then
    everything completed. *)
Definition events_in_turn : list event :=
  [ TimerFires; ResponseArrives (Body (Value still_processing));
    TimerFires; ResponseArrives (Body (Value finished)) ].

(** Two ticks whose answers, both reporting completion, come in after the
    second firing. *)
Definition events_overlapping : list event :=
  [ TimerFires; TimerFires;
    ResponseArrives (Body (Value finished)); ResponseArrives (Body (Value finished)) ].

(** Four historical years of revenue, the fourth one null. *)
Definition four_year_revenue : Extraction :=
  {| financials :=
       Value {| net_revenue_hist :=
                  Value [Value 100%float; Value 200%float; Value 300%float; Null];
                gross_profit_hist := Undefined; sga_hist := Undefined;
                adj_ebitda_hist := Undefined; depreciation_hist := Undefined |};
     _corrections_applied := Undefined;
     _derivations_applied := Undefined |}.

(** The scenario of the specification: EBITDA 1000 in each year,
    depreciation 950, 2000 and null; with it, gross profit and SG&A that
    put the operating income of year 2 above EBITDA. *)
Definition scenario : Extraction :=
  {| financials :=
       Value {| net_revenue_hist := nums [5000; 5200; 5400]%float;
                gross_profit_hist := nums [1500; 2500; 1500]%float;
                sga_hist := nums [700; 900; 600]%float;
                adj_ebitda_hist := nums [1000; 1000; 1000]%float;
                depreciation_hist := Value [Value 950%float; Value 2000%float; Null] |};
     _corrections_applied := Value ["sga sign flipped"];
     _derivations_applied := Undefined |}.

(** Every rule fires at every position: revenue null in all three years,
    operating income above EBITDA, depreciation equal to EBITDA, and one
    correction applied. *)
Definition every_rule_fires : Extraction :=
  {| financials :=
       Value {| net_revenue_hist := Value [Null; Null; Null];
                gross_profit_hist := nums [3000; 3000; 3000]%float;
                sga_hist := nums [500; 500; 500]%float;
                adj_ebitda_hist := nums [1000; 1000; 1000]%float;
                depreciation_hist := nums [1000; 1000; 1000]%float |};
     _corrections_applied := Value ["revenue sign"];
     _derivations_applied := Value [] |}.

(** An extraction whose revenue history is a string. *)
Definition revenue_not_an_array : RawExtraction :=
  {| raw_financials :=
       Value {| raw_net_revenue_hist := JStr "n/a";
                raw_gross_profit_hist := nums [1500; 2500; 1500]%float;
                raw_sga_hist := nums [700; 900; 600]%float;
                raw_adj_ebitda_hist := nums [1000; 1000; 1000]%float;
                raw_depreciation_hist := Undefined |};
     raw_corrections_applied := Undefined;
     raw_derivations_applied := Undefined |}.

(** * Further functions of [static/app.js] *)

(** ** Percentages and table rows *)

(** [v] in a condition, for a number: zero and NaN are falsy. *)
Definition truthy_num (v : slot float) : bool :=
  match v with
  | Value x => negb (PrimFloat.eqb x 0) && PrimFloat.eqb x x
  | _ => false
  end.

(** [v !== 0]. *)
Definition is_not_zero (v : slot float) : bool :=
  match v with
  | Value x => negb (PrimFloat.eqb x 0)
  | _ => true
  end.

(** [for (let i = from; i < to; i++) body]. *)
Definition for_range {S : Type} (from to : nat) (body : S -> nat -> S) (init : S) : S :=
  fold_left body (seq from (to - from)) init.

(** [cells.join('')]. *)
Definition join (cells : list string) : string := String.concat EmptyString cells.

Section Tables.

Context `{Host}.

Definition fmtPct (val : slot float) : string :=
  match val with
  | Undefined | Null => "--"
  | Value v => toFixed (v * 100)%float 1 ++ "%"
  end.

Definition pctCell (val : slot float) : string :=
  "<td>" ++ fmtPct val ++ "</td>".

(** The cells of [row(label, arr, fmt, cls, sourceKey)], local to
    [renderHistoricalTable] and [renderProjectionsTable]:
    [arr.slice(0, n).map((v, i) => fmt(v, sourceKey ? getSource(sources,
    sourceKey, i) : null))]. *)
Definition row_cells (sources : gmap string string) (n : nat)
    (arr : list (slot float)) (fmt : slot float -> slot string -> string)
    (sourceKey : slot string) : list string :=
  imap (fun i v =>
          fmt v (if truthy sourceKey
                 then getSource (Value sources) (or_default sourceKey EmptyString) i
                 else Null))
       (take n arr).

Definition row (sources : gmap string string) (n : nat) (label : string)
    (arr : list (slot float)) (fmt : slot float -> slot string -> string)
    (cls sourceKey : slot string) : string :=
  let c := if truthy cls
           then " " ++ attr "class" (or_default cls EmptyString)
           else EmptyString in
  "<tr" ++ c ++ "><td " ++ attr "class" "row-label" ++ ">" ++ label ++ "</td>"
    ++ join (row_cells sources n arr fmt sourceKey) ++ "</tr>".

(** The loop of [renderHistoricalTable] that fills [opIncome]. *)
Definition historical_opIncome (gp sga : list (slot float)) (n : nat)
    : list (slot float) :=
  for_upto n
    (fun opIncome i =>
       (opIncome ++ [ match index gp i, index sga i with
                      | Value gp_i, Value sga_i => Value (gp_i - sga_i)%float
                      | _, _ => Null
                      end ])%list)
    [].

(** [row('Operating Income', opIncome, moneyCell, '', 'sga_hist')]. *)
Definition operating_income_row (sources : gmap string string)
    (gp sga : list (slot float)) (n : nat) : string :=
  row sources n "Operating Income" (historical_opIncome gp sga n) moneyCell
      (Value EmptyString) (Value "sga_hist").

(** The loop of [renderProjectionsTable] that fills [revGrowth], which
    starts as [[null]]. *)
Definition projection_revGrowth (rev : list (slot float)) (n : nat)
    : list (slot float) :=
  for_range 1 n
    (fun revGrowth i =>
       if truthy_num (index rev i) && truthy_num (index rev (i - 1))
          && is_not_zero (index rev (i - 1))
       then
         match index rev i, index rev (i - 1) with
         | Value r, Value r' => (revGrowth ++ [Value ((r - r') / r')%float])%list
         | _, _ => (revGrowth ++ [Null])%list
         end
       else (revGrowth ++ [Null])%list)
    [Null].

End Tables.

(** ** Status of a document *)

(** An entry of [GET /api/documents] or of [data.recent], as far as the
    status functions read it. *)
Module Doc.
Record t : Type := {
  extraction_status : slot string;
  ocr_status : slot string;
  status : slot string
}.
End Doc.

Definition _getOverallStatus (doc : Doc.t) : string :=
  if is_str (Doc.extraction_status doc) "completed" then "completed"
  else if is_str (Doc.extraction_status doc) "processing" then "extracting"
  else if is_str (Doc.extraction_status doc) "failed" then "failed"
  else if is_str (Doc.ocr_status doc) "completed" then "ocr_done"
  else if is_str (Doc.ocr_status doc) "processing" then "processing"
  else if is_str (Doc.ocr_status doc) "failed" then "failed"
  else "pending".

Definition status_badge (cls body : string) : string :=
  "<span " ++ attr "class" ("status-badge " ++ cls) ++ ">" ++ body ++ "</span>".

Definition spinner_sm : string := "<span " ++ attr "class" "spinner-sm" ++ "></span>".

Definition getStatusBadge (doc : Doc.t) : string :=
  let ext := Doc.extraction_status doc in
  let ocr := or_slot (Doc.ocr_status doc) (Doc.status doc) in
  if is_str ext "completed" then status_badge "status-analyzed" "Analyzed"
  else if is_str ext "processing"
  then status_badge "status-extracting" (spinner_sm ++ " Extracting")
  else if is_str ext "failed" then status_badge "status-failed" "Extract Failed"
  else if is_str ocr "completed" then status_badge "status-ocr-done" "OCR Done"
  else if is_str ocr "processing"
  then status_badge "status-processing" (spinner_sm ++ " OCR")
  else if is_str ocr "failed" then status_badge "status-failed" "Failed"
  else status_badge "status-pending" "Pending".

(** The status response of the poller, read as a document entry. *)
Definition doc_of (d : StatusData) : Doc.t :=
  {| Doc.extraction_status := extraction_status d;
     Doc.ocr_status := ocr_status d;
     Doc.status := Undefined |}.

(** The badge that goes with an overall status; [ext_failed] tells the two
    failures apart. *)
Definition badge_of (overall : string) (ext_failed : bool) : string :=
  if String.eqb overall "completed" then status_badge "status-analyzed" "Analyzed"
  else if String.eqb overall "extracting"
  then status_badge "status-extracting" (spinner_sm ++ " Extracting")
  else if String.eqb overall "failed"
  then (if ext_failed then status_badge "status-failed" "Extract Failed"
        else status_badge "status-failed" "Failed")
  else if String.eqb overall "ocr_done" then status_badge "status-ocr-done" "OCR Done"
  else if String.eqb overall "processing"
  then status_badge "status-processing" (spinner_sm ++ " OCR")
  else status_badge "status-pending" "Pending".

(** ** Uploading *)

(** An entry of [data.uploaded]. *)
Module File.
Record t : Type := {
  id : nat;
  original_name : slot string
}.
End File.

(** What the upload request ends in: a rejection, or the parsed body with
    its [uploaded] property. *)
Inductive upload_result : Type :=
  | UploadFailed
  | UploadBody (data : slot (slot (list File.t))).

(** [uploadedFiles.innerHTML = ...] with content that holds no status
    element: every anchor leaves the page. *)
Definition clearUploaded : M unit := fun w =>
  (Normal tt,
   {| timers := timers w; next_timer := next_timer w;
      activePollers := activePollers w; anchors := ∅; calls := calls w |}).

(** The [innerHTML] of the [.file-size] span of a new status element. *)
Definition ocr_processing_html : string := spinner ++ " OCR Processing...".

(** [uploadedFiles.appendChild(fi)] for the status element of [docId];
    were an element of that id already in the page, [getElementById] would
    go on finding the earlier one. *)
Definition appendStatusElement (docId : nat) : M unit := fun w =>
  (Normal tt,
   match anchors w !! docId with
   | Some _ => w
   | None =>
       {| timers := timers w; next_timer := next_timer w;
          activePollers := activePollers w;
          anchors := <[docId := ocr_processing_html]> (anchors w);
          calls := calls w |}
   end).

(** [list.forEach(f)]. *)
Fixpoint forEach {A : Type} (l : list A) (f : A -> M unit) : M unit :=
  match l with
  | [] => mret tt
  | x :: l' => f x ;; forEach l' f
  end.

(** [data.uploaded] and the [forEach] read on it: each throws on a missing
    receiver. *)
Definition uploaded_of (data : slot (slot (list File.t))) : M (list File.t) :=
  match data with
  | Value (Value files) => mret files
  | _ => raise
  end.

(** [uploadFiles(files)] up to its [await]: the list is emptied and filled
    with placeholders that carry no id. *)
Definition uploadFiles_begin : M unit := clearUploaded.

(** [uploadFiles(files)] from the moment the response [r] is in. *)
Definition uploadFiles_response (r : upload_result) : M unit :=
  try_catch
    (data ← match r with UploadFailed => raise | UploadBody data => mret data end;
     clearUploaded ;;
     uploaded ← uploaded_of data;
     forEach uploaded
       (fun file =>
          appendStatusElement (File.id file) ;;
          startPipelinePolling (File.id file) ;;
          mret tt))
    clearUploaded.

(** ** Writing the warnings to the page *)

(** The three elements [renderIntegrityWarnings] writes to, each present
    or not: [#integrityWarnings] with its [style.display] and [className],
    [#warningCount] with its [textContent], [#warningList] with its
    [innerHTML]. *)
Record WarningPanel : Type := {
  container : option (string * string);
  countEl : option string;
  listEl : option string
}.



Section WholeAnalyzer.

Context `{Host}.


End WholeAnalyzer.

(** ** Views and sample inputs for the further properties *)

(** Every live timer was handed out by [setInterval]. *)
Definition handles_fresh (w : World) : Prop :=
  forall id, id ∈ timers w -> id < next_timer w.

(** An answer that reports a terminal stage. *)
Definition is_terminal_answer (e : event) : bool :=
  match e with
  | ResponseArrives (Body (Value d)) => terminal d
  | _ => false
  end.

(** Any event but the removal of the anchor. *)
Definition anchor_stays (e : event) : bool :=
  match e with AnchorRemoved => false | _ => true end.

Definition is_answered (e : event) : bool :=
  match e with ResponseArrives (Body _) => true | _ => false end.

(** An event after which the poller goes on: a timer firing, a failed
    fetch, a null body, or a body that reports no terminal stage. *)
Definition goes_on (e : event) : bool :=
  match e with
  | TimerFires => true
  | ResponseArrives FetchFailed => true
  | ResponseArrives (Body (Value d)) => negb (terminal d)
  | ResponseArrives (Body _) => true
  | AnchorRemoved => false
  end.

Definition all_present : WarningPanel :=
  {| container := Some (EmptyString, "integrity-warnings");
     countEl := Some EmptyString; listEl := Some EmptyString |}.

(** An extraction with nothing to report but one derivation. *)
Definition only_derivation : Extraction :=
  {| financials :=
       Value {| net_revenue_hist := nums [5000; 5200; 5400]%float;
                gross_profit_hist := nums [1500; 1600; 1500]%float;
                sga_hist := nums [700; 900; 600]%float;
                adj_ebitda_hist := nums [1000; 1000; 1000]%float;
                depreciation_hist := nums [100; 120; 110]%float |};
     _corrections_applied := Undefined;
     _derivations_applied := Value ["capex from revenue ratio"] |}.

(** Reading entities back: a left inverse of [escape_text], used to show
    that escaping loses nothing. *)
Fixpoint unescape_text (s : string) : string :=
  match s with
  | EmptyString => EmptyString
  | String c rest =>
      if Ascii.eqb c "&"%char then
        match rest with
        | String "a" (String "m" (String "p" (String ";" r))) =>
            String "&" (unescape_text r)
        | String "l" (String "t" (String ";" r)) => String "<" (unescape_text r)
        | String "g" (String "t" (String ";" r)) => String ">" (unescape_text r)
        | String "n" (String "b" (String "s" (String "p" (String ";" r)))) =>
            String (Ascii.ascii_of_nat 194)
              (String (Ascii.ascii_of_nat 160) (unescape_text r))
        | _ => String c (unescape_text rest)
        end
      else String c (unescape_text rest)
  end.

(** What a tick that reaches the stage chains does: it writes [labels] in
    turn and then stops the poller or not. *)
Definition tick_writes (docId interval : nat) (labels : list string) (stops : bool)
    : M unit :=
  forEach labels (setInnerHTML docId) ;;
  if stops then stop_and_refresh docId interval else mret tt.

(** The document ids of an upload response. *)
Definition uploaded_ids (r : upload_result) : list nat :=
  match r with
  | UploadBody (Value (Value files)) => File.id <$> files
  | _ => []
  end.

Definition two_files : list File.t :=
  [ {| File.id := 8; File.original_name := Value "a.pdf" |};
    {| File.id := 9; File.original_name := Value "b.pdf" |} ].

(** * Properties *)

(** ** Strings *)

Lemma append_assoc (a b c : string) : (a ++ b) ++ c = a ++ b ++ c.
Proof.
  induction a as [| ch a IH]; [reflexivity |].
  change (String ch ((a ++ b) ++ c) = String ch (a ++ b ++ c)).
  by rewrite IH.
Qed.

(** ** Numbers *)

(** Binary64 multiplication commutes, so [|ebitda| * 0.15] of the code is
    [0.15 * |ebitda|]. *)
Lemma float_mul_comm (x y : float) : (x * y)%float = (y * x)%float.
Proof.
  apply Prim2SF_inj. rewrite !mul_spec. unfold SF64mul, SFmul.
  destruct (Prim2SF x) as [sx | sx | | sx mx ex],
           (Prim2SF y) as [sy | sy | | sy my ey];
    rewrite ?(xorb_comm sx sy); try reflexivity.
  by rewrite Pos.mul_comm, Z.add_comm.
Qed.

(** ** Provenance lookup and rendering *)

Section FormattingProperties.

Context `{Host}.

Lemma tooltips_other (tag : string) :
  tag ∉ tooltip_keys -> tooltips !! tag = None.
Proof.
  intros Hnot. unfold tooltips.
  rewrite !lookup_insert_ne; [by rewrite lookup_empty | ..];
    intros <-; apply Hnot; unfold tooltip_keys; by repeat constructor.
Qed.

(** No member of [Object.prototype] begins with [derived]. *)
Lemma derived_not_inherited (tag : string) :
  String.prefix "derived" tag = true -> tag ∉ object_prototype_members.
Proof.
  intros Hpre Hin. unfold object_prototype_members in Hin.
  repeat (apply elem_of_cons in Hin as [-> | Hin]; [discriminate Hpre |]).
  by apply elem_of_nil in Hin.
Qed.

(** For a tag that begins with [derived] the lookup reads the table and
    nothing else. *)
Lemma getCapexMethodTooltip_derived (tag : string) :
  String.prefix "derived" tag = true ->
  getCapexMethodTooltip tag
  = OwnString (match tooltips !! tag with
               | Some t => t
               | None => generic_tooltip
               end).
Proof.
  intros Hpre. unfold getCapexMethodTooltip, lookup_literal.
  destruct (decide (tag ∈ tooltip_keys)) as [Hin | Hnot].
  - unfold tooltip_keys in Hin.
    repeat (apply elem_of_cons in Hin as [-> | Hin]; [by vm_compute |]).
    by apply elem_of_nil in Hin.
  - rewrite (tooltips_other tag Hnot).
    by rewrite bool_decide_eq_false_2 by (by apply derived_not_inherited).
Qed.

(** A tag that names an inherited member finds that member, not the
    generic text. *)
Lemma getCapexMethodTooltip_inherited (name : string) :
  name ∈ object_prototype_members ->
  getCapexMethodTooltip name = Inherited name.
Proof.
  intros Hin. unfold object_prototype_members in Hin.
  repeat (apply elem_of_cons in Hin as [-> | Hin]; [by vm_compute |]).
  by apply elem_of_nil in Hin.
Qed.

Lemma capexCell_marked (v : float) (tag : string) :
  truthy (Value tag) = true -> is_str (Value tag) "direct" = false ->
  capexCell (Value v) (Value tag)
  = td v (fmtMoney (Value v)
          ++ derived_badge (tooltip_text (getCapexMethodTooltip tag))).
Proof.
  intros Ht Hd. unfold capexCell, td, derived_badge.
  rewrite Ht, Hd. simpl. rewrite !append_assoc.
  by destruct (PrimFloat.ltb v 0).
Qed.

Lemma capexCell_plain (v : float) (source : slot string) :
  negb (truthy source) || is_str source "direct" = true ->
  capexCell (Value v) source = td v (fmtMoney (Value v)).
Proof. intros Hs. unfold capexCell, td. by rewrite Hs. Qed.

Lemma moneyCell_plain (v : float) (source : slot string) :
  is_str source "derived" = false ->
  moneyCell (Value v) source = td v (fmtMoney (Value v)).
Proof.
  intros Hs. unfold moneyCell, td. rewrite Hs.
  by destruct (PrimFloat.ltb v 0).
Qed.

(** C8: [getSource] reads the indexed key first, then the bare key, and
    otherwise answers [null], which both cells render exactly as they
    render ['direct']; a key counts when its tag is a non-empty string.
    With sources [{capex_hist_1: 'derived:flat_last_known'}] the lookup of
    [capex_hist] yields that tag at index 1 and [null] at index 0. *)
Theorem getSource_precedence (m : gmap string string) (key : string) (idx : nat) :
  let bare :=
    match m !! key with
    | Some tag => if String.eqb tag EmptyString then Null else Value tag
    | None => Null
    end in
  getSource (Value m) key idx
  = match m !! (key ++ "_" ++ pretty idx) with
    | Some tag => if String.eqb tag EmptyString then bare else Value tag
    | None => bare
    end
  /\ getSource Undefined key idx = Null
  /\ getSource Null key idx = Null
  /\ (forall v, capexCell v Null = capexCell v (Value "direct"))
  /\ (forall v, moneyCell v Null = moneyCell v (Value "direct"))
  /\ getSource (Value {["capex_hist_1" := "derived:flat_last_known"]}) "capex_hist" 1
     = Value "derived:flat_last_known"
  /\ getSource (Value {["capex_hist_1" := "derived:flat_last_known"]}) "capex_hist" 0
     = Null.
Proof.
  cbv zeta. split_and!; try by vm_compute.
  unfold getSource, or_slot, prop, truthy.
  destruct (m !! (key ++ "_" ++ pretty idx)) as [[| c1 t1] |];
    destruct (m !! key) as [[| c2 t2] |]; reflexivity.
Qed.

(** C6, as the code has it: [capexCell] renders a value plain for a
    missing, empty or ['direct'] tag and with an [(est.)] badge for every
    tag that begins with [derived], the tooltip read from the five-entry
    table and generic for any other tag that begins with [derived];
    [moneyCell] appends its [(est.)] marker, which carries no tooltip, for
    the tag ['derived'] alone and renders every other tag plain.  A
    missing value renders as [--] in both. *)
Theorem provenance_rendering (v : float) :
  (forall source, negb (truthy source) || is_str source "direct" = true ->
     capexCell (Value v) source = td v (fmtMoney (Value v)))
  /\ (forall rest,
       capexCell (Value v) (Value ("derived" ++ rest))
       = td v (fmtMoney (Value v)
               ++ derived_badge (match tooltips !! ("derived" ++ rest) with
                                 | Some t => t
                                 | None => generic_tooltip
                                 end)))
  /\ size tooltips = 5
  /\ (forall tag, tag ∈ tooltip_keys ->
       exists t, tooltips !! tag = Some t
                 /\ getCapexMethodTooltip tag = OwnString t)
  /\ (forall tag, String.prefix "derived" tag = true -> tag ∉ tooltip_keys ->
       tooltips !! tag = None
       /\ getCapexMethodTooltip tag = OwnString generic_tooltip)
  /\ moneyCell (Value v) (Value "derived") = td v (fmtMoney (Value v) ++ derived_tag)
  /\ (forall source, is_str source "derived" = false ->
       moneyCell (Value v) source = td v (fmtMoney (Value v)))
  /\ (forall source, capexCell Null source = "<td>--</td>"
                    /\ capexCell Undefined source = "<td>--</td>"
                    /\ moneyCell Null source = "<td>--</td>"
                    /\ moneyCell Undefined source = "<td>--</td>").
Proof.
  split_and!.
  - apply capexCell_plain.
  - intros rest. rewrite capexCell_marked by done.
    rewrite getCapexMethodTooltip_derived by (by destruct rest). reflexivity.
  - by vm_compute.
  - intros tag Hin. unfold tooltip_keys in Hin.
    repeat (apply elem_of_cons in Hin as [-> | Hin];
            [eexists; split; by vm_compute |]).
    by apply elem_of_nil in Hin.
  - intros tag Hpre Hnot. split; [by apply tooltips_other |].
    by rewrite getCapexMethodTooltip_derived, tooltips_other.
  - unfold moneyCell, td, derived_tag. simpl. rewrite !append_assoc.
    by destruct (PrimFloat.ltb v 0).
  - apply moneyCell_plain.
  - intros source. by split_and!.
Qed.

End FormattingProperties.

(** C6, as stated, fails on [moneyCell]: a tag that begins with [derived]
    is rendered plain, exactly as ['direct'] is. *)
Lemma moneyCell_ignores_derived_variants :
  String.prefix "derived" "derived:flat_last_known" = true
  /\ @moneyCell reference_host (Value 100%float) (Value "derived:flat_last_known")
     = "<td>$100K</td>"
  /\ @moneyCell reference_host (Value 100%float) (Value "derived:flat_last_known")
     = @moneyCell reference_host (Value 100%float) (Value "direct").
Proof. by vm_compute. Qed.

(** A tag that names a member of [Object.prototype] finds that member:
    the title of the badge is then the text of a built-in, not the generic
    message. *)
Example capexCell_inherited_member :
  getCapexMethodTooltip "constructor" = Inherited "constructor"
  /\ @capexCell reference_host (Value 100%float) (Value "constructor")
     = "<td>$100K <span " ++ attr "class" "derived-badge" ++ " "
         ++ attr "title" "function Object() { [native code] }"
         ++ ">(est.)</span></td>".
Proof. by vm_compute. Qed.

(** ** The integrity analyzer *)

Section AnalyzerProperties.

Context `{Host}.

Local Open Scope list_scope.

Lemma check1_push revHist ws : check1 revHist ws = ws ++ check1 revHist [].
Proof. unfold check1, push. by destruct (0 <? _)%nat; rewrite ?app_nil_r. Qed.

Lemma check2_push gp sga ebitda ws i :
  check2 gp sga ebitda ws i = ws ++ check2 gp sga ebitda [] i.
Proof.
  unfold check2, push.
  destruct (index gp i), (index sga i), (index ebitda i);
    rewrite ?app_nil_r; try reflexivity.
  by destruct (PrimFloat.ltb _ _); rewrite ?app_nil_r.
Qed.

Lemma check3_push dep ebitda ws i :
  check3 dep ebitda ws i = ws ++ check3 dep ebitda [] i.
Proof.
  unfold check3, push.
  destruct (index dep i), (index ebitda i); rewrite ?app_nil_r; try reflexivity.
  by destruct (PrimFloat.ltb _ _); rewrite ?app_nil_r.
Qed.

Lemma check4_push corrections derivations ws :
  check4 corrections derivations ws = ws ++ check4 corrections derivations [].
Proof. unfold check4, push. by destruct (_ || _); rewrite ?app_nil_r. Qed.

(** The warnings are the four rules' warnings, in the order of the rules. *)
Lemma renderIntegrityWarnings_rules (e : Extraction) :
  renderIntegrityWarnings (Value e) = Ok (rule1 e ++ rule2 e ++ rule3 e ++ rule4 e).
Proof.
  unfold renderIntegrityWarnings, for_upto. cbn [seq fold_left]. f_equal.
  fold (fin_of e). fold (revHist_of e) (gp_of e) (sga_of e) (ebitda_of e) (dep_of e).
  fold (corrections_of e) (derivations_of e).
  rewrite (check4_push _ _ (check3 _ _ _ _)).
  rewrite 2!(check3_push _ _ (check3 _ _ _ _)).
  rewrite (check3_push _ _ (check2 _ _ _ _ _)).
  rewrite 2!(check2_push _ _ _ (check2 _ _ _ _ _)).
  rewrite (check2_push _ _ _ (check1 _ _)).
  unfold rule1, rule2, rule3, rule4, rule2_at, rule3_at.
  by rewrite <- !app_assoc.
Qed.

Lemma rule2_at_length e i : length (rule2_at e i) <= 1.
Proof.
  unfold rule2_at, check2, push.
  destruct (index (gp_of e) i), (index (sga_of e) i), (index (ebitda_of e) i);
    simpl; try lia.
  destruct (PrimFloat.ltb _ _); simpl; lia.
Qed.

Lemma rule3_at_length e i : length (rule3_at e i) <= 1.
Proof.
  unfold rule3_at, check3, push.
  destruct (index (dep_of e) i), (index (ebitda_of e) i); simpl; try lia.
  destruct (PrimFloat.ltb _ _); simpl; lia.
Qed.

Lemma rule2_at_error e i : Forall (fun w => level w = "error") (rule2_at e i).
Proof.
  unfold rule2_at, check2, push.
  destruct (index (gp_of e) i), (index (sga_of e) i), (index (ebitda_of e) i);
    simpl; try constructor.
  destruct (PrimFloat.ltb _ _); simpl; repeat constructor.
Qed.

Lemma rule3_at_error e i : Forall (fun w => level w = "error") (rule3_at e i).
Proof.
  unfold rule3_at, check3, push.
  destruct (index (dep_of e) i), (index (ebitda_of e) i); simpl; try constructor.
  destruct (PrimFloat.ltb _ _); simpl; repeat constructor.
Qed.

(** Rule 1 counts the nulls of the whole array. *)
Lemma rule1_counts_whole_array (e : Extraction) :
  rule1 e
  = match length (List.filter is_null (revHist_of e)) with
    | O => []
    | S n => [ {| level := "error"; message := revenue_message (S n) |} ]
    end.
Proof. unfold rule1, check1, push. by destruct (length _). Qed.

(** On an array of at most three entries that count is the number of
    nulls among the first three positions. *)
Lemma rule1_three_years (e : Extraction) :
  length (revHist_of e) <= 3 ->
  length (List.filter is_null (revHist_of e)) = nulls_in_first3 (revHist_of e).
Proof. intros Hlen. unfold nulls_in_first3. by rewrite take_ge. Qed.

(** C5: at a position below 3 where gross profit, SG&A and EBITDA are all
    numbers, rule 2 pushes exactly one error-level warning when
    [grossProfit - sga > ebitda], and nothing otherwise.  The message of
    that warning reads [Year 1], [Year 2] or [Year 3] for the positions 0,
    1 and 2, followed by the operating income [grossProfit - sga] and the
    EBITDA of that position, each as [fmtMoney] renders it.  Rule 2 of the
    analyzer is these pushes for positions 0, 1, 2 in turn. *)
Theorem operating_income_rule (e : Extraction) (i : nat) (g s b : float) :
  i < 3 ->
  index (gp_of e) i = Value g ->
  index (sga_of e) i = Value s ->
  index (ebitda_of e) i = Value b ->
  renderIntegrityWarnings (Value e) = Ok (rule1 e ++ rule2 e ++ rule3 e ++ rule4 e)
  /\ rule2 e = rule2_at e 0 ++ rule2_at e 1 ++ rule2_at e 2
  /\ rule2_at e i
     = if PrimFloat.ltb b (g - s)
       then [ {| level := "error";
                 message :=
                   ("Year " ++ match i with 0 => "1" | 1 => "2" | _ => "3" end
                      ++ ": Operating Income (" ++ fmtMoney (Value (g - s)%float)
                      ++ ") exceeds EBITDA (" ++ fmtMoney (Value b)
                      ++ ") — rows may be swapped")%string |} ]
       else [].
Proof.
  intros Hi Hg Hs Hb. split_and!.
  - apply renderIntegrityWarnings_rules.
  - reflexivity.
  - unfold rule2_at, check2, push. rewrite Hg, Hs, Hb.
    destruct (PrimFloat.ltb _ _); [| reflexivity].
    unfold operating_income_message.
    destruct i as [| [| [| i]]]; [reflexivity | reflexivity | reflexivity | lia].
Qed.

(** C4: at a position below 3 where depreciation and EBITDA are both
    numbers, rule 3 pushes an error-level warning if and only if
    [|depreciation - ebitda| < 0.15 * |ebitda|], computed in binary64
    arithmetic as the code computes it; it pushes that one warning and no
    other. *)
Theorem depreciation_rule (e : Extraction) (i : nat) (d b : float) :
  i < 3 ->
  index (dep_of e) i = Value d ->
  index (ebitda_of e) i = Value b ->
  renderIntegrityWarnings (Value e) = Ok (rule1 e ++ rule2 e ++ rule3 e ++ rule4 e)
  /\ rule3 e = rule3_at e 0 ++ rule3_at e 1 ++ rule3_at e 2
  /\ ((exists w, rule3_at e i = [w] /\ level w = "error")
      <-> PrimFloat.ltb (PrimFloat.abs (d - b)) (0.15 * PrimFloat.abs b) = true)
  /\ rule3_at e i
     = if PrimFloat.ltb (PrimFloat.abs (d - b)) (PrimFloat.abs b * 0.15)
       then [ {| level := "error"; message := depreciation_message i d b |} ]
       else [].
Proof.
  intros _ Hd Hb.
  assert (Hat : rule3_at e i
     = if PrimFloat.ltb (PrimFloat.abs (d - b)) (PrimFloat.abs b * 0.15)
       then [ {| level := "error"; message := depreciation_message i d b |} ]
       else []).
  { unfold rule3_at, check3, push. rewrite Hd, Hb.
    by destruct (PrimFloat.ltb _ _). }
  split_and!.
  - apply renderIntegrityWarnings_rules.
  - reflexivity.
  - rewrite Hat, (float_mul_comm 0.15).
    destruct (PrimFloat.ltb _ _); split; try done.
    + intros _. eexists. split; reflexivity.
    + intros (w & Hw & _). discriminate Hw.
  - exact Hat.
Qed.

(** The rules on the typed inputs of a raw extraction do not read the
    revenue. *)
Lemma metrics_of_raw_of (e : Extraction) :
  rule2 (metrics_of (raw_of e)) = rule2 e
  /\ rule3 (metrics_of (raw_of e)) = rule3 e
  /\ rule4 (metrics_of (raw_of e)) = rule4 e.
Proof. by destruct e as [[| | f] corrections derivations]. Qed.

(** Counting the nulls of a typed revenue history as the raw analyzer
    counts them. *)
Lemma null_count_typed (field : slot (list (slot float))) :
  null_count (or_js (js_of_history field) (JArr []))
  = Ok (length (List.filter is_null (or_default field []))).
Proof.
  destruct field as [| | entries]; try reflexivity.
  change (Ok (length (List.filter is_JNull (js_of_entry <$> entries)))
          = Ok (length (List.filter is_null entries))).
  f_equal. induction entries as [| v entries IH]; [reflexivity |].
  rewrite fmap_cons.
  destruct v; cbn [List.filter js_of_entry is_JNull is_null length]; by rewrite IH.
Qed.

(** The warnings of a raw extraction: rule 1 on the count of nulls, then
    rules 2 to 4 on the typed inputs; a count that throws ends the call. *)
Lemma renderIntegrityWarnings_raw_rules (ext : RawExtraction) :
  renderIntegrityWarnings_raw (Value ext)
  = match null_count (or_js (raw_revenue_of ext) (JArr [])) with
    | Throw => Throw
    | Ok n =>
        Ok ((if (0 <? n)%nat
             then [ {| level := "error"; message := revenue_message n |} ]
             else [])
            ++ rule2 (metrics_of ext) ++ rule3 (metrics_of ext)
            ++ rule4 (metrics_of ext))
    end.
Proof.
  unfold renderIntegrityWarnings_raw, raw_revenue_of.
  destruct (null_count _) as [n |]; [| reflexivity].
  unfold for_upto. cbn [seq fold_left]. f_equal.
  rewrite (check4_push _ _ (check3 _ _ _ _)).
  rewrite 2!(check3_push _ _ (check3 _ _ _ _)).
  rewrite (check3_push _ _ (check2 _ _ _ _ _)).
  rewrite 2!(check2_push _ _ _ (check2 _ _ _ _ _)).
  rewrite (check2_push _ _ _ (if (0 <? n)%nat then _ else _)).
  unfold rule2, rule3, rule4, rule2_at, rule3_at, push.
  rewrite <- !app_assoc.
  by destruct ext as [[| | f] corrections derivations].
Qed.

(** On a typed extraction the raw analyzer is the typed one. *)
Lemma renderIntegrityWarnings_raw_typed (e : Extraction) :
  renderIntegrityWarnings_raw (Value (raw_of e)) = renderIntegrityWarnings (Value e).
Proof.
  rewrite renderIntegrityWarnings_raw_rules, renderIntegrityWarnings_rules.
  destruct (metrics_of_raw_of e) as (-> & -> & ->).
  rewrite rule1_counts_whole_array.
  assert (Hcount :
    null_count (or_js (raw_revenue_of (raw_of e)) (JArr []))
    = Ok (length (List.filter is_null (revHist_of e)))).
  { unfold revHist_of, fin_of, raw_revenue_of.
    destruct e as [[| | f] corrections derivations]; try reflexivity.
    apply null_count_typed. }
  rewrite Hcount. by destruct (length _).
Qed.

(** The raw analyzer throws exactly on a revenue field that is truthy and
    not an array. *)
Lemma renderIntegrityWarnings_raw_throws (ext : RawExtraction) :
  renderIntegrityWarnings_raw (Value ext) = Throw
  <-> truthy_js (raw_revenue_of ext) = true /\ is_array (raw_revenue_of ext) = false.
Proof.
  rewrite renderIntegrityWarnings_raw_rules. unfold or_js.
  destruct (raw_revenue_of ext) as [| | b | x | s | items | fields]; simpl;
    try (split; [discriminate | by intros [? ?]]);
    try (split; [done | done]).
  - destruct b; simpl; [done |]. split; [discriminate | by intros [? ?]].
  - destruct (negb (PrimFloat.eqb x 0) && PrimFloat.eqb x x); simpl; [done |].
    split; [discriminate | by intros [? ?]].
  - destruct (negb (String.eqb s EmptyString)); simpl; [done |].
    split; [discriminate | by intros [? ?]].
Qed.

(** C9, as the code has it: with the other inputs typed as the data model
    has them (absent, null, or arrays of numbers and nulls of any length),
    the analyzer throws exactly when [net_revenue_hist] is truthy and not
    an array.  On every other revenue field, absent, null, falsy or an
    array of any entries, it returns its warnings: rule 1 on the count of
    nulls, then rules 2 to 4.  On a typed extraction it therefore never
    throws, whatever is missing: without [financials] and without arrays it
    runs on empty arrays, a position where one of the inputs of rule 2 or
    of rule 3 is [undefined] (past the end) or [null] contributes nothing
    to that rule, and a missing [data.extraction] never reaches the
    analyzer. *)
Theorem analyzer_never_throws (ext : RawExtraction) (e : Extraction) :
  let revenue := raw_revenue_of ext in
  (renderIntegrityWarnings_raw (Value ext) = Throw
   <-> truthy_js revenue = true /\ is_array revenue = false)
  /\ (truthy_js revenue = false \/ is_array revenue = true ->
      exists n,
        null_count (or_js revenue (JArr [])) = Ok n
        /\ renderIntegrityWarnings_raw (Value ext)
           = Ok ((if (0 <? n)%nat
                  then [ {| level := "error"; message := revenue_message n |} ]
                  else [])
                 ++ rule2 (metrics_of ext) ++ rule3 (metrics_of ext)
                 ++ rule4 (metrics_of ext)))
  /\ renderIntegrityWarnings_raw (Value (raw_of e))
     = Ok (rule1 e ++ rule2 e ++ rule3 e ++ rule4 e)
  /\ renderIntegrityWarnings (Value e) = renderIntegrityWarnings_raw (Value (raw_of e))
  /\ (forall i,
        nullish (index (gp_of e) i) || nullish (index (sga_of e) i)
          || nullish (index (ebitda_of e) i) = true ->
        rule2_at e i = [])
  /\ (forall i,
        nullish (index (dep_of e) i) || nullish (index (ebitda_of e) i) = true ->
        rule3_at e i = [])
  /\ (forall arr i, length arr <= i -> @index float arr i = Undefined)
  /\ (nullish (financials e) = true ->
      revHist_of e = [] /\ gp_of e = [] /\ sga_of e = [] /\ ebitda_of e = []
      /\ dep_of e = [] /\ rule1 e = [] /\ rule2 e = [] /\ rule3 e = [])
  /\ viewAnalysis_warnings Undefined = Ok None
  /\ viewAnalysis_warnings Null = Ok None
  /\ viewAnalysis_warnings (Value e)
     = Ok (Some (rule1 e ++ rule2 e ++ rule3 e ++ rule4 e)).
Proof.
  cbv zeta. split_and!.
  - apply renderIntegrityWarnings_raw_throws.
  - intros Hfine.
    destruct (null_count (or_js (raw_revenue_of ext) (JArr []))) as [n |] eqn:Hn.
    + exists n. split; [reflexivity |].
      by rewrite renderIntegrityWarnings_raw_rules, Hn.
    + exfalso.
      assert (Hthrow : renderIntegrityWarnings_raw (Value ext) = Throw)
        by (by rewrite renderIntegrityWarnings_raw_rules, Hn).
      apply renderIntegrityWarnings_raw_throws in Hthrow as [Ht Ha].
      destruct Hfine as [Hf | Hf]; congruence.
  - rewrite renderIntegrityWarnings_raw_typed. apply renderIntegrityWarnings_rules.
  - symmetry. apply renderIntegrityWarnings_raw_typed.
  - intros i Hnull. unfold rule2_at, check2.
    by destruct (index (gp_of e) i), (index (sga_of e) i), (index (ebitda_of e) i).
  - intros i Hnull. unfold rule3_at, check3.
    by destruct (index (dep_of e) i), (index (ebitda_of e) i).
  - intros arr i Hlen. unfold index. by rewrite lookup_ge_None_2.
  - intros Hnone. unfold revHist_of, gp_of, sga_of, ebitda_of, dep_of, fin_of,
      rule1, rule2, rule3, rule2_at, rule3_at, revHist_of, gp_of, sga_of,
      ebitda_of, dep_of, fin_of.
    by destruct (financials e).
  - reflexivity.
  - reflexivity.
  - unfold viewAnalysis_warnings. by rewrite renderIntegrityWarnings_rules.
Qed.

(** C10: the warnings are those of rule 1, then rule 2, then rule 3, then
    rule 4; the rules push at most 1, 3, 3 and 1 warnings, so at most 8 in
    all; the warnings of rules 1 to 3 are error-level and the warning of
    rule 4 is info-level. *)
Theorem warnings_shape (e : Extraction) :
  renderIntegrityWarnings (Value e) = Ok (rule1 e ++ rule2 e ++ rule3 e ++ rule4 e)
  /\ length (rule1 e) <= 1
  /\ length (rule2 e) <= 3
  /\ length (rule3 e) <= 3
  /\ length (rule4 e) <= 1
  /\ length (rule1 e ++ rule2 e ++ rule3 e ++ rule4 e) <= 8
  /\ Forall (fun w => level w = "error") (rule1 e ++ rule2 e ++ rule3 e)
  /\ Forall (fun w => level w = "info") (rule4 e).
Proof.
  assert (H1 : length (rule1 e) <= 1).
  { rewrite rule1_counts_whole_array.
    destruct (length (List.filter is_null (revHist_of e))); simpl; lia. }
  assert (H2 : length (rule2 e) <= 3).
  { unfold rule2. rewrite !length_app.
    pose proof (rule2_at_length e 0). pose proof (rule2_at_length e 1).
    pose proof (rule2_at_length e 2). lia. }
  assert (H3 : length (rule3 e) <= 3).
  { unfold rule3. rewrite !length_app.
    pose proof (rule3_at_length e 0). pose proof (rule3_at_length e 1).
    pose proof (rule3_at_length e 2). lia. }
  assert (H4 : length (rule4 e) <= 1).
  { unfold rule4, check4, push. destruct (_ || _); simpl; lia. }
  split_and!; try assumption.
  - apply renderIntegrityWarnings_rules.
  - rewrite !length_app. lia.
  - unfold rule2, rule3. rewrite !Forall_app. split_and!.
    + rewrite rule1_counts_whole_array.
      destruct (length (List.filter is_null (revHist_of e))); repeat constructor.
    + apply rule2_at_error.
    + apply rule2_at_error.
    + apply rule2_at_error.
    + apply rule3_at_error.
    + apply rule3_at_error.
    + apply rule3_at_error.
  - unfold rule4, check4, push. destruct (_ || _); repeat constructor.
Qed.

End AnalyzerProperties.

(** C3 fails on the code: rule 1 counts the nulls of the whole array.  With
    four years of revenue of which only the fourth is null, no null stands
    among the first three positions and the analyzer still reports one year
    missing of three. *)
Theorem revenue_rule_counts_past_three_years :
  nulls_in_first3 (@revHist_of four_year_revenue) = 0
  /\ @renderIntegrityWarnings reference_host (Value four_year_revenue)
     = Ok [ {| level := "error";
               message := "Revenue missing for 1 of 3 historical year(s). Margins and growth rates cannot be calculated." |} ].
Proof. by vm_compute. Qed.

(** C9, as stated, fails: a revenue history that is a string is truthy,
    so it is not replaced by the empty array, and it has no [filter]
    method; the analyzer throws before it has looked at any other input. *)
Lemma non_array_revenue_throws :
  raw_revenue_of revenue_not_an_array = JStr "n/a"
  /\ truthy_js (JStr "n/a") = true
  /\ null_count (JStr "n/a") = Throw
  /\ @renderIntegrityWarnings_raw reference_host (Value revenue_not_an_array) = Throw.
Proof. by vm_compute. Qed.

(** The scenario of the specification, evaluated. *)
Example scenario_warnings :
  @renderIntegrityWarnings reference_host (Value scenario)
  = Ok [ {| level := "error";
            message := "Year 2: Operating Income ($1.6M) exceeds EBITDA ($1.0M) — rows may be swapped" |};
         {| level := "error";
            message := "Year 1: Depreciation ($950K) nearly equals EBITDA ($1.0M) — likely a copy error" |};
         {| level := "info";
            message := "1 auto-correction(s) and 0 derivation(s) applied" |} ].
Proof. by vm_compute. Qed.

(** The bound of eight warnings is reached. *)
Example eight_warnings :
  (fun ws => (length ws, level <$> ws))
    <$> match @renderIntegrityWarnings reference_host (Value every_rule_fires) with
        | Ok ws => Some ws
        | Throw => None
        end
  = Some (8, [ "error"; "error"; "error"; "error"; "error"; "error"; "error"; "info" ]).
Proof. by vm_compute. Qed.

Lemma operating_income_rule_witness :
  (1 < 3)%nat /\ (2 < 3)%nat
  /\ @rule2_at reference_host scenario 1
     = [ {| level := "error";
            message := "Year 2: Operating Income ($1.6M) exceeds EBITDA ($1.0M) — rows may be swapped" |} ]
  /\ @rule2_at reference_host every_rule_fires 2
     = [ {| level := "error";
            message := "Year 3: Operating Income ($2.5M) exceeds EBITDA ($1.0M) — rows may be swapped" |} ].
Proof.
  split; [lia |]. split; [lia |]. split.
  - exact (proj2 (proj2 (@operating_income_rule reference_host scenario 1
                           2500%float 900%float 1000%float
                           ltac:(lia) eq_refl eq_refl eq_refl))).
  - exact (proj2 (proj2 (@operating_income_rule reference_host every_rule_fires 2
                           3000%float 500%float 1000%float
                           ltac:(lia) eq_refl eq_refl eq_refl))).
Defined.

Lemma depreciation_rule_witness :
  (0 < 3)%nat
  /\ @rule3_at reference_host scenario 0
     = [ {| level := "error";
            message := "Year 1: Depreciation ($950K) nearly equals EBITDA ($1.0M) — likely a copy error" |} ].
Proof.
  split; [lia |].
  exact (proj2 (proj2 (proj2 (@depreciation_rule reference_host scenario 0
                                950%float 1000%float
                                ltac:(lia) eq_refl eq_refl)))).
Defined.

(** ** The status poller *)

Section PollerProperties.

Local Open Scope list_scope.

Implicit Types (docId interval : nat) (w : World) (d : StatusData).

(** Unfolds the callback into the world it returns. *)
Ltac unfold_tick :=
  cbv beta iota delta
    [poll_tick try_catch extraction_chain stop_and_refresh stage_action
     mbind mret M_bind M_ret bind ret raise await member getElementById
     setInnerHTML clearInterval deletePoller loadDashboard consoleError].

(** Splits on what the two status fields hold: missing, null, one of the
    literals the code compares with, or another string. *)
Ltac case_status d :=
  unfold processing_but_finished, terminal, stage_by_precedence, is_str, truthy;
  destruct (ocr_status d) as [| | ocr];
  destruct (extraction_status d) as [| | ext];
  repeat match goal with
         | |- context [String.eqb ?s ?lit] =>
             is_var s; destruct (String.eqb_spec s lit) as [-> | ?]
         end;
  simpl.

Ltac count_calls :=
  unfold refreshes, label_writes, clears, record; simpl;
  rewrite ?List.filter_app, ?length_app; simpl;
  rewrite ?bool_decide_eq_true_2 by reflexivity; simpl.

Lemma timer_cleared (t : gset nat) (id : nat) : id ∉ t ∖ {[id]}.
Proof.
  intros [_ Hnot]%elem_of_difference. apply Hnot. by apply elem_of_singleton.
Qed.

Lemma timers_shrink (t : gset nat) (id : nat) : t ∖ {[id]} ⊆ t.
Proof. intros x [Hx _]%elem_of_difference. exact Hx. Qed.

Ltac solve_timers :=
  simpl; first [ reflexivity | apply timers_shrink | apply timer_cleared ].

Lemma anchor_found docId w :
  is_Some (anchors w !! docId) ->
  bool_decide (is_Some (anchors w !! docId)) = true.
Proof. apply bool_decide_eq_true_2. Qed.

Lemma anchor_gone docId w :
  anchors w !! docId = None ->
  bool_decide (is_Some (anchors w !! docId)) = false.
Proof.
  intros Hgone. apply bool_decide_eq_false_2. rewrite Hgone.
  by intros [? ?].
Qed.

(** With the anchor in the page, the callback applies the first chain
    and then, unless OCR failed, the second. *)
Lemma poll_tick_chains docId interval d w :
  is_Some (anchors w !! docId) ->
  poll_tick docId interval (Body (Value d)) w
  = if processing_but_finished d
    then (setInnerHTML docId stage1_html ;;
          stage_action docId interval d
            (if is_str (extraction_status d) "completed"
             then AnalysisComplete else ExtractionFailed)) w
    else stage_action docId interval d (stage_by_precedence d) w.
Proof.
  intros Hanchor. unfold_tick. rewrite (anchor_found _ _ Hanchor).
  cbv beta iota delta [negb]. case_status d; reflexivity.
Qed.

(** Without the anchor the callback clears its timer and does nothing
    else, whatever the body. *)
Lemma poll_tick_anchor_gone docId interval data w :
  anchors w !! docId = None ->
  poll_tick docId interval (Body data) w = clearInterval interval w.
Proof.
  intros Hgone. unfold_tick. by rewrite (anchor_gone _ _ Hgone).
Qed.

(** A failed fetch, or a body that is [null], is logged and changes
    nothing else. *)
Lemma poll_tick_failed docId interval w :
  poll_tick docId interval FetchFailed w = consoleError docId w.
Proof. reflexivity. Qed.

(** What one callback does to the refresh count and to the timers. *)
Lemma poll_tick_effect docId interval r w :
  let w' := snd (poll_tick docId interval r w) in
  (refreshes w' = refreshes w /\ timers w' ⊆ timers w)
  \/ (refreshes w' = refreshes w + 1 /\ interval ∉ timers w').
Proof.
  destruct r as [| data].
  { left. rewrite poll_tick_failed. split; [by count_calls; lia | done]. }
  destruct (anchors w !! docId) as [html |] eqn:Hanchor.
  2:{ left. rewrite poll_tick_anchor_gone by done.
      split; [count_calls; lia | solve_timers]. }
  assert (Hsome : is_Some (anchors w !! docId)) by (by eexists).
  destruct data as [| | d].
  1,2: left; unfold_tick; rewrite (anchor_found _ _ Hsome); simpl;
       split; [count_calls; lia | done].
  rewrite poll_tick_chains by done. unfold_tick.
  case_status d;
    first [ left; split; [count_calls; lia | solve_timers]
          | right; split; [count_calls; lia | solve_timers] ].
Qed.

(** C1, as the code has it: with the anchor in the page, a tick applies
    the action of the first matching case of the precedence and of no
    other case, except on a body with [ocr_status] processing and
    [extraction_status] completed or failed, where it writes the Stage 1/2
    label and then applies the terminal case 4 or 5 as well.  On a body
    with [ocr_status] processing and any other [extraction_status] the
    tick writes the Stage 1/2 label and neither clears the timer, nor
    touches the registry, nor refreshes the statistics. *)
Theorem poll_tick_precedence docId interval d w :
  is_Some (anchors w !! docId) ->
  let w' := snd (poll_tick docId interval (Body (Value d)) w) in
  poll_tick docId interval (Body (Value d)) w
  = (if processing_but_finished d
     then (setInnerHTML docId stage1_html ;;
           stage_action docId interval d
             (if is_str (extraction_status d) "completed"
              then AnalysisComplete else ExtractionFailed)) w
     else stage_action docId interval d (stage_by_precedence d) w)
  /\ (processing_but_finished d = false ->
      label_writes w' <= label_writes w + 1)
  /\ (is_str (ocr_status d) "processing" = true ->
      processing_but_finished d = false ->
      calls w' = calls w ++ [SetInnerHTML docId stage1_html]
      /\ anchors w' !! docId = Some stage1_html
      /\ timers w' = timers w
      /\ activePollers w' = activePollers w
      /\ refreshes w' = refreshes w).
Proof.
  intros Hanchor w'. subst w'. split_and!.
  - by apply poll_tick_chains.
  - rewrite poll_tick_chains by done. unfold_tick.
    case_status d; intros Hnot; try discriminate; count_calls; lia.
  - rewrite poll_tick_chains by done. unfold_tick.
    case_status d; intros Hocr Hnot; try discriminate;
      (split_and!; [reflexivity | simpl; apply lookup_insert_eq
                   | reflexivity | reflexivity | count_calls; lia]).
Qed.

(** The world after a run of a poller started on [w]: at most one refresh
    as long as every request is answered before the timer fires again. *)
Lemma run_answered_in_turn docId interval (r0 : nat) (evs : list event) :
  forall s s',
    in_flight s <= 1 ->
    (refreshes (world s) = r0
     \/ (refreshes (world s) = r0 + 1
         /\ (interval ∉ timers (world s)) /\ in_flight s = 0)) ->
    answered_in_turn (in_flight s) evs = true ->
    run docId interval s evs = Some s' ->
    refreshes (world s') <= r0 + 1.
Proof.
  induction evs as [| e evs IH]; intros s s' Hfl Hinv Hturn Hrun.
  - simpl in Hrun. injection Hrun as <-. destruct Hinv as [-> | [-> _]]; lia.
  - simpl in Hrun. destruct e as [| r |]; simpl in Hrun, Hturn.
    + apply andb_true_iff in Hturn as [Hzero Hturn].
      apply bool_decide_eq_true_1 in Hzero.
      destruct (bool_decide (interval ∈ timers (world s))) eqn:Hlive;
        [| discriminate].
      apply bool_decide_eq_true_1 in Hlive.
      refine (IH _ s' _ _ _ Hrun); simpl; rewrite ?Hzero; try done; try lia.
      destruct Hinv as [Hr | (_ & Hdead & _)]; [by left | done].
    + destruct (in_flight s) as [| n] eqn:Hn; [discriminate |].
      assert (n = 0) as -> by lia.
      destruct Hinv as [Hr | (_ & _ & Hz)]; [| discriminate].
      refine (IH _ s' _ _ _ Hrun); simpl; try done; try lia.
      destruct (poll_tick_effect docId interval r (world s)) as [[Hsame _] | [Hmore Hdead]].
      * left. by rewrite Hsame.
      * right. rewrite Hmore, Hr. done.
    + refine (IH _ s' _ _ _ Hrun); simpl; try done.
Qed.

(** C2, as the code has it: a tick that finds the anchor and observes a
    terminal stage clears its own timer (one [clearInterval] call),
    deletes its registry entry and calls [loadDashboard] once; and from
    [startPipelinePolling] on, as long as each request is answered before
    the timer fires again, [loadDashboard] is called at most once. *)
Theorem terminal_tick_and_single_refresh docId w :
  (forall interval d,
     is_Some (anchors w !! docId) ->
     terminal d = true ->
     let w' := snd (poll_tick docId interval (Body (Value d)) w) in
     (interval ∉ timers w')
     /\ activePollers w' !! docId = None
     /\ refreshes w' = refreshes w + 1
     /\ clears interval w' = clears interval w + 1)
  /\ (forall interval w1 evs s',
       startPipelinePolling docId w = (Normal interval, w1) ->
       answered_in_turn 0 evs = true ->
       run docId interval (poller_at w1) evs = Some s' ->
       refreshes (world s') <= refreshes w + 1).
Proof.
  split.
  - intros interval d Hanchor Hterm w'. subst w'.
    rewrite poll_tick_chains by done. revert Hterm. unfold_tick.
    case_status d; intros Hterm; try discriminate;
      (split_and!; [solve_timers | simpl; apply lookup_delete_eq
                   | count_calls; lia | count_calls; lia]).
  - intros interval w1 evs s' Hstart Hturn Hrun.
    injection Hstart as <- <-.
    apply (run_answered_in_turn docId (next_timer w) (refreshes w) evs
             (poller_at (snd (startPipelinePolling docId w))) s');
      simpl; try done; try lia.
    by left.
Qed.

End PollerProperties.

(** C1, as stated, fails: a body with [ocr_status] processing and
    [extraction_status] completed matches case 1 of the precedence, and the
    tick writes two labels, ends on the completion label, clears the timer,
    deletes the registry entry and refreshes the statistics. *)
Lemma processing_with_completed_extraction_stops :
  let d := status (Value "processing") (Value "completed") in
  let w' := snd (poll_tick 7 1 (Body (Value d)) polling_page) in
  processing_but_finished d = true
  /\ stage_by_precedence d = Stage1Extracting
  /\ calls polling_page = []
  /\ calls w' = [ SetInnerHTML 7 stage1_html; SetInnerHTML 7 (complete_html d);
                  ClearInterval 1; DeletePoller 7; LoadDashboard ]
  /\ label_writes w' = 2
  /\ anchors w' !! 7 = Some (complete_html d)
  /\ bool_decide (1 ∈ timers polling_page) = true
  /\ bool_decide (1 ∈ timers w') = false
  /\ activePollers polling_page !! 7 = Some 1
  /\ activePollers w' !! 7 = None
  /\ refreshes w' = 1.
Proof. by vm_compute. Qed.

Lemma poll_tick_precedence_witness :
  is_Some (anchors polling_page !! 7)
  /\ poll_tick 7 1 (Body (Value still_processing)) polling_page
     = setInnerHTML 7 stage1_html polling_page.
Proof.
  assert (Hanchor : is_Some (anchors polling_page !! 7)) by (by eexists).
  split; [exact Hanchor |].
  exact (proj1 (poll_tick_precedence 7 1 still_processing polling_page Hanchor)).
Defined.

(** C2, as stated, fails: when the timer fires twice before the first
    answer is in, both answers report the completed extraction and each
    calls [loadDashboard]. *)
Lemma overlapping_responses_refresh_twice :
  startPipelinePolling 7 upload_page = (Normal 1, polling_page)
  /\ refreshes upload_page = 0
  /\ (fun s => refreshes (world s))
       <$> run 7 1 (poller_at polling_page) events_overlapping = Some 2.
Proof. by vm_compute. Qed.

Lemma terminal_tick_and_single_refresh_witness :
  (is_Some (anchors polling_page !! 7)
   /\ terminal finished = true
   /\ activePollers (snd (poll_tick 7 1 (Body (Value finished)) polling_page)) !! 7 = None)
  /\ (startPipelinePolling 7 upload_page = (Normal 1, polling_page)
      /\ answered_in_turn 0 events_in_turn = true
      /\ (exists s', run 7 1 (poller_at polling_page) events_in_turn = Some s'
                     /\ refreshes (world s') <= refreshes upload_page + 1)).
Proof.
  assert (Hanchor : is_Some (anchors polling_page !! 7)) by (by eexists).
  split.
  - split; [exact Hanchor |]. split; [reflexivity |].
    exact (proj1 (proj2
             (proj1 (terminal_tick_and_single_refresh 7 polling_page) 1 finished
                Hanchor eq_refl))).
  - split; [reflexivity |]. split; [reflexivity |].
    destruct (run 7 1 (poller_at polling_page) events_in_turn) as [s' |] eqn:Hrun.
    + exists s'. split; [reflexivity |].
      exact (proj2 (terminal_tick_and_single_refresh 7 upload_page)
               1 polling_page events_in_turn s' eq_refl eq_refl Hrun).
    + vm_compute in Hrun. discriminate Hrun.
Defined.

(** C7 fails on the code: when the anchor is gone the tick clears its timer
    and returns; unlike the three terminal branches it does not delete
    [activePollers[docId]], so the handle stays in the registry. *)
Theorem missing_anchor_leaves_registry_entry :
  let w' := snd (poll_tick 7 1 (Body (Value still_processing)) abandoned_page) in
  anchors abandoned_page !! 7 = None
  /\ activePollers abandoned_page !! 7 = Some 1
  /\ bool_decide (1 ∈ timers abandoned_page) = true
  /\ calls abandoned_page = []
  /\ calls w' = [ ClearInterval 1 ]
  /\ anchors w' !! 7 = None
  /\ bool_decide (1 ∈ timers w') = false
  /\ activePollers w' !! 7 = Some 1.
Proof. by vm_compute. Qed.

Lemma provenance_rendering_witness :
  String.prefix "derived" "derived:unknown_method" = true
  /\ ("derived:unknown_method" ∉ tooltip_keys)
  /\ getCapexMethodTooltip "derived:unknown_method" = OwnString generic_tooltip
  /\ @capexCell reference_host (Value 100%float) (Value "derived:unknown_method")
     = "<td>$100K <span " ++ attr "class" "derived-badge" ++ " "
         ++ attr "title" generic_tooltip ++ ">(est.)</span></td>".
Proof.
  assert (Hnot : "derived:unknown_method" ∉ tooltip_keys).
  { intros Hin. unfold tooltip_keys in Hin.
    repeat (apply elem_of_cons in Hin as [Heq | Hin]; [discriminate Heq |]).
    by apply elem_of_nil in Hin. }
  split; [reflexivity |]. split; [exact Hnot |]. split.
  - exact (proj2 (proj1 (proj2 (proj2 (proj2 (proj2
             (@provenance_rendering reference_host 100%float)))))
             "derived:unknown_method" eq_refl Hnot)).
  - exact (proj1 (proj2 (@provenance_rendering reference_host 100%float))
             ":unknown_method").
Defined.

Lemma analyzer_never_throws_witness :
  is_array (raw_revenue_of (raw_of four_year_revenue)) = true
  /\ (exists n,
        null_count (or_js (raw_revenue_of (raw_of four_year_revenue)) (JArr [])) = Ok n
        /\ @renderIntegrityWarnings_raw reference_host (Value (raw_of four_year_revenue))
           = Ok ((if (0 <? n)%nat
                  then [ {| level := "error"; message := revenue_message n |} ]
                  else [])
                 ++ @rule2 reference_host (metrics_of (raw_of four_year_revenue))
                 ++ @rule3 reference_host (metrics_of (raw_of four_year_revenue))
                 ++ rule4 (metrics_of (raw_of four_year_revenue)))%list)
  /\ nullish (index (dep_of scenario) 2) || nullish (index (ebitda_of scenario) 2) = true
  /\ @rule3_at reference_host scenario 2 = []
  /\ @renderIntegrityWarnings_raw reference_host (Value (raw_of scenario))
     = Ok (rule1 scenario ++ @rule2 reference_host scenario
           ++ @rule3 reference_host scenario ++ rule4 scenario)%list.
Proof.
  pose proof (@analyzer_never_throws reference_host (raw_of four_year_revenue) scenario)
    as (_ & Hfine & Htyped & _ & _ & Hskip & _).
  split; [reflexivity |]. split; [exact (Hfine (or_intror eq_refl)) |].
  split; [reflexivity |]. split; [exact (Hskip 2 eq_refl) |].
  exact Htyped.
Defined.

(** * Further properties *)

(** ** [escapeHtml] *)

Lemma append_cons (c : ascii) (a b : string) : String c a ++ b = String c (a ++ b).
Proof. reflexivity. Qed.

Lemma append_nil_l (b : string) : EmptyString ++ b = b.
Proof. reflexivity. Qed.

Lemma chars_append (a b : string) :
  list_ascii_of_string (a ++ b)
  = (list_ascii_of_string a ++ list_ascii_of_string b)%list.
Proof.
  induction a as [| c a IH]; [reflexivity |].
  rewrite append_cons. simpl. by rewrite IH.
Qed.

(** One step of [escape_text]. *)
Lemma escape_text_cons (c : ascii) (rest : string) :
  escape_text (String c rest)
  = if Ascii.eqb c "&"%char then "&amp;" ++ escape_text rest
    else if Ascii.eqb c "<"%char then "&lt;" ++ escape_text rest
    else if Ascii.eqb c ">"%char then "&gt;" ++ escape_text rest
    else
      match rest with
      | String c' rest' =>
          if Ascii.eqb c (Ascii.ascii_of_nat 194) && Ascii.eqb c' (Ascii.ascii_of_nat 160)
          then "&nbsp;" ++ escape_text rest'
          else String c (escape_text rest)
      | EmptyString => String c EmptyString
      end.
Proof. destruct rest; reflexivity. Qed.

Lemma escape_text_no_angle_bounded (n : nat) :
  forall text, String.length text <= n ->
  forall c, c ∈ list_ascii_of_string (escape_text text) ->
  c <> "<"%char /\ c <> ">"%char.
Proof.
  induction n as [n IH] using lt_wf_ind.
  intros [| c0 rest] Hlen c Hc; [by apply elem_of_nil in Hc |].
  simpl in Hlen. rewrite escape_text_cons in Hc.
  assert (Hrest : forall x, x ∈ list_ascii_of_string (escape_text rest) ->
                            x <> "<"%char /\ x <> ">"%char).
  { apply (IH (String.length rest)); lia. }
  assert (Hentity : forall entity tail,
            Forall (fun x => x <> "<"%char /\ x <> ">"%char)
                   (list_ascii_of_string entity) ->
            (forall x, x ∈ list_ascii_of_string (escape_text tail) ->
                       x <> "<"%char /\ x <> ">"%char) ->
            c ∈ list_ascii_of_string (entity ++ escape_text tail) ->
            c <> "<"%char /\ c <> ">"%char).
  { intros entity tail Hent Htail Hin. rewrite chars_append in Hin.
    apply elem_of_app in Hin as [Hin | Hin]; [| by apply Htail].
    rewrite Forall_forall in Hent. by apply Hent. }
  destruct (Ascii.eqb_spec c0 "&"%char) as [-> | Hamp].
  { apply (Hentity "&amp;" rest); [by repeat constructor | done | done]. }
  destruct (Ascii.eqb_spec c0 "<"%char) as [-> | Hlt].
  { apply (Hentity "&lt;" rest); [by repeat constructor | done | done]. }
  destruct (Ascii.eqb_spec c0 ">"%char) as [-> | Hgt].
  { apply (Hentity "&gt;" rest); [by repeat constructor | done | done]. }
  destruct rest as [| c1 rest'].
  { simpl in Hc. apply list_elem_of_singleton in Hc as ->. done. }
  destruct (Ascii.eqb c0 (ascii_of_nat 194) && Ascii.eqb c1 (ascii_of_nat 160)).
  - apply (Hentity "&nbsp;" rest'); [by repeat constructor | | done].
    apply (IH (String.length rest')); simpl in Hlen; lia.
  - simpl in Hc. apply elem_of_cons in Hc as [-> | Hc]; [done |].
    by apply Hrest.
Qed.

(** X1: whatever the text, missing and null included, the output of
    [escapeHtml] holds no angle bracket, so the text cannot open or close
    a tag in the markup it is spliced into. *)
Theorem escapeHtml_no_angle_brackets (text : slot string) (c : ascii) :
  c ∈ list_ascii_of_string (escapeHtml text) ->
  c <> "<"%char /\ c <> ">"%char.
Proof.
  unfold escapeHtml. destruct (negb (truthy text)).
  - intros Hc. by apply elem_of_nil in Hc.
  - by apply (escape_text_no_angle_bounded (String.length (or_default text EmptyString))).
Qed.

Lemma unescape_text_plain (c : ascii) (s : string) :
  c <> "&"%char -> unescape_text (String c s) = String c (unescape_text s).
Proof.
  intros Hc. simpl. by destruct (Ascii.eqb_spec c "&"%char).
Qed.

Lemma unescape_escape_bounded (n : nat) :
  forall text, String.length text <= n -> unescape_text (escape_text text) = text.
Proof.
  induction n as [n IH] using lt_wf_ind.
  intros [| c0 rest] Hlen; [reflexivity |].
  simpl in Hlen. rewrite escape_text_cons.
  assert (Hrest : unescape_text (escape_text rest) = rest).
  { apply (IH (String.length rest)); lia. }
  destruct (Ascii.eqb_spec c0 "&"%char) as [-> | Hamp].
  { rewrite !append_cons, append_nil_l. simpl. by rewrite Hrest. }
  destruct (Ascii.eqb_spec c0 "<"%char) as [-> | Hlt].
  { rewrite !append_cons, append_nil_l. simpl. by rewrite Hrest. }
  destruct (Ascii.eqb_spec c0 ">"%char) as [-> | Hgt].
  { rewrite !append_cons, append_nil_l. simpl. by rewrite Hrest. }
  destruct rest as [| c1 rest'].
  { by rewrite unescape_text_plain. }
  destruct (Ascii.eqb_spec c0 (ascii_of_nat 194)) as [-> | H194];
    destruct (Ascii.eqb_spec c1 (ascii_of_nat 160)) as [-> | H160];
    cbn [andb]; lazy beta iota;
    try (rewrite unescape_text_plain by done; by rewrite Hrest).
  rewrite !append_cons, append_nil_l. simpl. f_equal. f_equal.
  apply (IH (String.length rest')); simpl in Hlen; lia.
Qed.

(** X2: [escapeHtml] loses nothing: two texts with the same escaped form
    are the same text. *)
Theorem escapeHtml_injective (a b : string) :
  escapeHtml (Value a) = escapeHtml (Value b) -> a = b.
Proof.
  assert (Hesc : forall s, escapeHtml (Value s) = escape_text s).
  { intros [| c s]; reflexivity. }
  rewrite !Hesc. intros Heq.
  rewrite <- (unescape_escape_bounded (String.length a) a) by lia.
  rewrite <- (unescape_escape_bounded (String.length b) b) by lia.
  by rewrite Heq.
Qed.

(** ** Pollers side by side *)

Section PollerFurther.

Local Open Scope list_scope.

Implicit Types (docId interval : nat) (w : World) (d : StatusData).

Ltac unfold_ops :=
  cbv beta iota delta
    [poll_tick try_catch extraction_chain stop_and_refresh stage_action
     tick_writes forEach
     mbind mret M_bind M_ret bind ret raise await member getElementById
     setInnerHTML clearInterval deletePoller loadDashboard consoleError].

Ltac split_status d :=
  unfold processing_but_finished, terminal, stage_by_precedence,
    _getOverallStatus, doc_of, is_str, truthy;
  cbn [Doc.extraction_status Doc.ocr_status Doc.status];
  destruct (ocr_status d) as [| | ocr];
  destruct (extraction_status d) as [| | ext];
  repeat match goal with
         | |- context [String.eqb ?s ?lit] =>
             is_var s; destruct (String.eqb_spec s lit) as [-> | ?]
         end;
  simpl.

(** Every tick is a logged error, a bare [clearInterval], or at most two
    label writes followed or not by the stop. *)
Lemma poll_tick_forms docId interval r w :
  snd (poll_tick docId interval r w) = snd (consoleError docId w)
  \/ snd (poll_tick docId interval r w) = snd (clearInterval interval w)
  \/ exists labels stops,
       snd (poll_tick docId interval r w)
       = snd (tick_writes docId interval labels stops w).
Proof.
  destruct r as [| data]; [by left |].
  destruct (anchors w !! docId) as [html |] eqn:Hanchor.
  2:{ right; left. by rewrite poll_tick_anchor_gone. }
  assert (Hsome : is_Some (anchors w !! docId)) by (by eexists).
  destruct data as [| | d].
  1,2: left; unfold_ops; by rewrite (anchor_found _ _ Hsome).
  right; right. rewrite poll_tick_chains by done. unfold_ops.
  split_status d;
    first [ by exists [], false | by eexists [_], false | by eexists [_], true
          | by eexists [_; _], true | by eexists [_; _], false ].
Qed.

Lemma tick_writes_world docId interval labels stops w :
  let w' := snd (tick_writes docId interval labels stops w) in
  timers w' = (if stops then timers w ∖ {[interval]} else timers w)
  /\ next_timer w' = next_timer w
  /\ activePollers w'
     = (if stops then delete docId (activePollers w) else activePollers w)
  /\ (forall docId', docId' <> docId -> anchors w' !! docId' = anchors w !! docId').
Proof.
  revert w. induction labels as [| html labels IH]; intros w.
  - destruct stops; by split_and!.
  - specialize (IH (snd (setInnerHTML docId html w))).
    change (snd (tick_writes docId interval (html :: labels) stops w))
      with (snd (tick_writes docId interval labels stops
                   (snd (setInnerHTML docId html w)))).
    destruct IH as (Ht & Hn & Hp & Ha). split_and!; try done.
    intros docId' Hne. rewrite Ha by done. simpl. by apply lookup_insert_ne.
Qed.

(** A tick never starts a timer and never hands out a handle. *)
Lemma poll_tick_timers docId interval r w :
  let w' := snd (poll_tick docId interval r w) in
  (timers w' = timers w \/ timers w' = timers w ∖ {[interval]})
  /\ next_timer w' = next_timer w.
Proof.
  destruct (poll_tick_forms docId interval r w) as [-> | [-> | (labels & stops & ->)]].
  - split; [by left | done].
  - split; [by right | done].
  - destruct (tick_writes_world docId interval labels stops w) as (Ht & Hn & _).
    split; [| done]. destruct stops; [by right | by left].
Qed.

(** X3: a tick of one document's poller, whatever the response, leaves
    every other document alone: its anchor, its registry entry and its
    timer are as they were. *)
Theorem poll_tick_leaves_other_pollers docId interval r w docId' interval' :
  docId' <> docId -> interval' <> interval ->
  let w' := snd (poll_tick docId interval r w) in
  anchors w' !! docId' = anchors w !! docId'
  /\ activePollers w' !! docId' = activePollers w !! docId'
  /\ (interval' ∈ timers w' <-> interval' ∈ timers w).
Proof.
  intros Hd Hi.
  destruct (poll_tick_forms docId interval r w) as [-> | [-> | (labels & stops & ->)]].
  - by split_and!.
  - split_and!; try done. simpl.
    rewrite elem_of_difference, elem_of_singleton. tauto.
  - destruct (tick_writes_world docId interval labels stops w) as (Ht & _ & Hp & Ha).
    cbv zeta. rewrite Ht, Hp, Ha by done. destruct stops; split_and!; try done.
    + by apply lookup_delete_ne.
    + rewrite elem_of_difference, elem_of_singleton. tauto.
Qed.

(** A tick that finds the anchor and a body with no terminal stage stops
    nothing. *)
Lemma poll_tick_goes_on docId interval d w :
  is_Some (anchors w !! docId) ->
  terminal d = false ->
  let w' := snd (poll_tick docId interval (Body (Value d)) w) in
  timers w' = timers w
  /\ activePollers w' = activePollers w
  /\ is_Some (anchors w' !! docId)
  /\ refreshes w' = refreshes w.
Proof.
  intros Hanchor Hterm. cbv zeta. rewrite poll_tick_chains by done.
  revert Hterm. unfold_ops.
  split_status d; intros Hterm; try discriminate;
    (split_and!;
     [ reflexivity | reflexivity
     | simpl; rewrite ?lookup_insert_eq; done
     | unfold refreshes, record; simpl;
       rewrite ?List.filter_app, ?length_app; simpl; lia ]).
Qed.

(** A null body in front of the anchor is a logged error. *)
Lemma poll_tick_null_body docId interval data w :
  is_Some (anchors w !! docId) ->
  nullish data = true ->
  poll_tick docId interval (Body data) w = consoleError docId w.
Proof.
  intros Hanchor Hnull. destruct data; try discriminate;
    unfold_ops; by rewrite (anchor_found _ _ Hanchor).
Qed.

Lemma refreshes_consoleError docId w :
  refreshes (snd (consoleError docId w)) = refreshes w.
Proof.
  unfold refreshes, consoleError, record. simpl.
  rewrite List.filter_app, length_app. simpl. lia.
Qed.

(** X4: while the anchor is on the page and every answer is a failed
    fetch, a null body or a status that is not terminal, the poller goes
    on: its timer stays live, the registry is unchanged and the dashboard
    is not refreshed, however many ticks pass. *)
Theorem polling_goes_on docId interval (evs : list event) :
  forall s s',
    forallb goes_on evs = true ->
    is_Some (anchors (world s) !! docId) ->
    interval ∈ timers (world s) ->
    run docId interval s evs = Some s' ->
    interval ∈ timers (world s')
    /\ activePollers (world s') = activePollers (world s)
    /\ is_Some (anchors (world s') !! docId)
    /\ refreshes (world s') = refreshes (world s).
Proof.
  induction evs as [| e evs IH]; intros s s' Hall Hanchor Hlive Hrun.
  - simpl in Hrun. injection Hrun as <-. by split_and!.
  - simpl in Hall. apply andb_true_iff in Hall as [He Hall].
    simpl in Hrun. destruct e as [| r |]; simpl in Hrun; [| | discriminate He].
    + rewrite bool_decide_eq_true_2 in Hrun by done.
      apply (IH _ s' Hall) in Hrun; done.
    + destruct (in_flight s) as [| n]; [discriminate |].
      assert (Hstep :
        let w' := snd (poll_tick docId interval r (world s)) in
        timers w' = timers (world s)
        /\ activePollers w' = activePollers (world s)
        /\ is_Some (anchors w' !! docId)
        /\ refreshes w' = refreshes (world s)).
      { destruct r as [| [| | d]].
        - rewrite poll_tick_failed. split_and!; try done.
          apply refreshes_consoleError.
        - rewrite poll_tick_null_body by done. split_and!; try done.
          apply refreshes_consoleError.
        - rewrite poll_tick_null_body by done. split_and!; try done.
          apply refreshes_consoleError.
        - apply poll_tick_goes_on; [done |].
          simpl in He. by apply negb_true_iff in He. }
      destruct Hstep as (Ht & Hp & Ha & Hr).
      apply (IH _ s' Hall) in Hrun; simpl; rewrite ?Ht; try done.
      simpl in Hrun. by rewrite Hp, Hr in Hrun.
Qed.

(** A cleared timer stays cleared. *)
Lemma poll_tick_stays_cleared docId interval r w :
  interval ∉ timers w -> interval ∉ timers (snd (poll_tick docId interval r w)).
Proof.
  intros Hdead.
  destruct (poll_tick_timers docId interval r w) as [[-> | ->] _]; [done |].
  rewrite elem_of_difference. tauto.
Qed.

Lemma cleared_quiet_timer docId interval (evs : list event) :
  forall s s',
    interval ∉ timers (world s) ->
    run docId interval s evs = Some s' ->
    interval ∉ timers (world s').
Proof.
  induction evs as [| e evs IH]; intros s s' Hdead Hrun.
  - simpl in Hrun. by injection Hrun as <-.
  - simpl in Hrun. destruct e as [| r |]; simpl in Hrun.
    + by rewrite bool_decide_eq_false_2 in Hrun.
    + destruct (in_flight s) as [| n]; [discriminate |].
      apply IH in Hrun; [done | by apply poll_tick_stays_cleared].
    + by apply IH in Hrun.
Qed.

(** A tick that finds the anchor and a terminal stage stops the poller
    and refreshes the statistics once. *)
Lemma poll_tick_stops docId interval d w :
  is_Some (anchors w !! docId) ->
  terminal d = true ->
  let w' := snd (poll_tick docId interval (Body (Value d)) w) in
  (interval ∉ timers w')
  /\ activePollers w' !! docId = None
  /\ is_Some (anchors w' !! docId)
  /\ refreshes w' = refreshes w + 1.
Proof.
  intros Hanchor Hterm. cbv zeta. rewrite poll_tick_chains by done.
  revert Hterm. unfold_ops.
  split_status d; intros Hterm; try discriminate;
    (split_and!;
     [ apply timer_cleared
     | simpl; apply lookup_delete_eq
     | simpl; rewrite ?lookup_insert_eq; done
     | unfold refreshes, record; simpl;
       rewrite ?List.filter_app, ?length_app; simpl; lia ]).
Qed.

(** No tick puts an entry into the registry. *)
Lemma poll_tick_keeps_unregistered docId interval r w :
  activePollers w !! docId = None ->
  activePollers (snd (poll_tick docId interval r w)) !! docId = None.
Proof.
  intros Hnone.
  destruct (poll_tick_forms docId interval r w) as [-> | [-> | (labels & stops & ->)]];
    [done | done |].
  destruct (tick_writes_world docId interval labels stops w) as (_ & _ & -> & _).
  destruct stops; [apply lookup_delete_eq | done].
Qed.

(** A poller that has stopped stays stopped, whatever arrives later. *)
Lemma stopped_stays_stopped docId interval (evs : list event) :
  forall s s',
    interval ∉ timers (world s) ->
    activePollers (world s) !! docId = None ->
    run docId interval s evs = Some s' ->
    (interval ∉ timers (world s')) /\ activePollers (world s') !! docId = None.
Proof.
  induction evs as [| e evs IH]; intros s s' Hdead Hnone Hrun.
  - simpl in Hrun. by injection Hrun as <-.
  - simpl in Hrun. destruct e as [| r |]; simpl in Hrun.
    + by rewrite bool_decide_eq_false_2 in Hrun.
    + destruct (in_flight s) as [| n]; [discriminate |].
      apply IH in Hrun; [done | by apply poll_tick_stays_cleared
                        | by apply poll_tick_keeps_unregistered].
    + by apply IH in Hrun.
Qed.

(** X5: while the anchor is on the page, the dashboard is refreshed once
    for every answer that reports a terminal stage, whether or not the
    timer has been cleared by then: the callback does not look at the
    timer or at the registry, so an answer that comes in after the poller
    has stopped refreshes again.  After the first such answer the timer is
    cleared and the registry entry is gone, and they stay so. *)
Theorem refresh_for_each_terminal_answer docId interval (evs : list event) :
  forall s s',
    forallb anchor_stays evs = true ->
    is_Some (anchors (world s) !! docId) ->
    run docId interval s evs = Some s' ->
    refreshes (world s')
    = refreshes (world s) + length (List.filter is_terminal_answer evs)
    /\ is_Some (anchors (world s') !! docId)
    /\ (existsb is_terminal_answer evs = true ->
        (interval ∉ timers (world s')) /\ activePollers (world s') !! docId = None).
Proof.
  induction evs as [| e evs IH]; intros s s' Hstays Hanchor Hrun.
  - simpl in Hrun. injection Hrun as <-. simpl. split_and!; [lia | done | done].
  - simpl in Hstays. apply andb_true_iff in Hstays as [He Hstays].
    simpl in Hrun. destruct e as [| r |]; simpl in Hrun; [| | discriminate He].
    + destruct (bool_decide _); [| discriminate].
      apply (IH _ s' Hstays) in Hrun; done.
    + destruct (in_flight s) as [| n]; [discriminate |].
      assert (Hstep :
        let w' := snd (poll_tick docId interval r (world s)) in
        is_Some (anchors w' !! docId)
        /\ refreshes w'
           = refreshes (world s)
             + (if is_terminal_answer (ResponseArrives r) then 1 else 0)
        /\ (is_terminal_answer (ResponseArrives r) = true ->
            (interval ∉ timers w') /\ activePollers w' !! docId = None)).
      { destruct r as [| [| | d]]; cbv zeta; cbn [is_terminal_answer].
        - rewrite poll_tick_failed. split_and!; try done.
          rewrite refreshes_consoleError. lia.
        - rewrite poll_tick_null_body by done. split_and!; try done.
          rewrite refreshes_consoleError. lia.
        - rewrite poll_tick_null_body by done. split_and!; try done.
          rewrite refreshes_consoleError. lia.
        - destruct (terminal d) eqn:Hterm.
          + destruct (poll_tick_stops docId interval d (world s) Hanchor Hterm)
              as (Ht & Hp & Ha & Hr).
            by split_and!.
          + destruct (poll_tick_goes_on docId interval d (world s) Hanchor Hterm)
              as (_ & _ & Ha & Hr).
            split_and!; [done | lia | done]. }
      destruct Hstep as (Ha & Hr & Hstop).
      pose proof Hrun as Hrest.
      apply (IH _ s' Hstays) in Hrun as (Hcount & Hanchor' & Hlater); [| exact Ha].
      cbn [world] in Hcount. rewrite Hr in Hcount.
      split_and!; [| exact Hanchor' |].
      * cbn [List.filter].
        destruct (is_terminal_answer (ResponseArrives r)); cbn [length]; lia.
      * cbn [existsb]. intros Hex.
        apply orb_true_iff in Hex as [Hnow | Hex]; [| by apply Hlater].
        destruct (Hstop Hnow) as [Hdead Hnone].
        by apply (stopped_stays_stopped docId interval evs _ s') in Hrest.
Qed.

(** X6: a poller whose anchor is gone writes no label, refreshes no
    dashboard and leaves the registry as it is, whatever the responses;
    the first response that is not a failed fetch clears its timer. *)
Theorem abandoned_poller docId interval (evs : list event) :
  forall s s',
    anchors (world s) !! docId = None ->
    run docId interval s evs = Some s' ->
    anchors (world s') !! docId = None
    /\ label_writes (world s') = label_writes (world s)
    /\ refreshes (world s') = refreshes (world s)
    /\ activePollers (world s') = activePollers (world s)
    /\ (existsb is_answered evs = true -> interval ∉ timers (world s')).
Proof.
  induction evs as [| e evs IH]; intros s s' Hgone Hrun.
  - simpl in Hrun. injection Hrun as <-. by split_and!.
  - simpl in Hrun. destruct e as [| r |]; simpl in Hrun.
    + destruct (bool_decide _); [| discriminate].
      by apply IH in Hrun.
    + destruct (in_flight s) as [| n]; [discriminate |].
      destruct r as [| data].
      * rewrite poll_tick_failed in Hrun.
        apply IH in Hrun as (Ha & Hl & Hr & Hp & Ht); [| done].
        split_and!; try done.
        -- rewrite Hl. unfold label_writes, consoleError, record. simpl.
           rewrite List.filter_app, length_app. simpl. lia.
        -- rewrite Hr. apply refreshes_consoleError.
      * rewrite poll_tick_anchor_gone in Hrun by done.
        pose proof Hrun as Hquiet.
        apply IH in Hrun as (Ha & Hl & Hr & Hp & _); [| done].
        apply cleared_quiet_timer in Hquiet; [| simpl; apply timer_cleared].
        split_and!; try done.
        -- rewrite Hl. unfold label_writes, clearInterval, record. simpl.
           rewrite List.filter_app, length_app. simpl. lia.
        -- rewrite Hr. unfold refreshes, clearInterval, record. simpl.
           rewrite List.filter_app, length_app. simpl. lia.
    + apply IH in Hrun as (Ha & Hl & Hr & Hp & Ht);
        [| simpl; apply lookup_delete_eq].
      by split_and!.
Qed.

(** X7: with the anchor on the page, a tick clears the timer exactly when
    the dashboard's [_getOverallStatus] of the same two fields reads
    ['completed'] or ['failed'], or when OCR has failed while the
    extraction status still reads ['processing'], the one case in which the
    poller stops on a document the dashboard shows as extracting. *)
Theorem poller_stops_with_dashboard_status docId interval d w :
  is_Some (anchors w !! docId) ->
  interval ∈ timers w ->
  (interval ∉ timers (snd (poll_tick docId interval (Body (Value d)) w)))
  <-> (_getOverallStatus (doc_of d) = "completed"
       \/ _getOverallStatus (doc_of d) = "failed"
       \/ (is_str (ocr_status d) "failed" = true
           /\ is_str (extraction_status d) "processing" = true)).
Proof.
  intros Hanchor Hlive. rewrite poll_tick_chains by done. unfold_ops.
  split_status d;
    (split;
     [ intros Hstop;
       first [ by left | by right; left | by right; right
             | exfalso; by apply Hstop ]
     | intros Hs;
       first [ apply timer_cleared
             | exfalso; destruct Hs as [Hs | [Hs | [Hs1 Hs2]]]; discriminate ] ]).
Qed.

End PollerFurther.

(** ** Status badges *)

(** X8: the badge of the document list is the badge of the dashboard's
    overall status, computed with [ocr_status || status] in the place of
    [ocr_status]; only for ['failed'] does the badge look further, to tell
    a failed extraction from a failed OCR. *)
Theorem getStatusBadge_follows_overall_status (doc : Doc.t) :
  getStatusBadge doc
  = badge_of
      (_getOverallStatus
         {| Doc.extraction_status := Doc.extraction_status doc;
            Doc.ocr_status := or_slot (Doc.ocr_status doc) (Doc.status doc);
            Doc.status := Doc.status doc |})
      (is_str (Doc.extraction_status doc) "failed").
Proof.
  destruct doc as [ext ocr st].
  unfold getStatusBadge, _getOverallStatus, or_slot, truthy, is_str.
  cbn [Doc.extraction_status Doc.ocr_status Doc.status].
  destruct ext as [| | ext]; destruct ocr as [| | ocr]; destruct st as [| | st];
    repeat (cbn [negb];
            match goal with
            | |- context [String.eqb ?s ?lit] =>
                is_var s; destruct (String.eqb_spec s lit) as [-> | ?]
            end);
    reflexivity.
Qed.

(** ** Uploading *)

Section UploadProperties.

Local Open Scope list_scope.

Implicit Types (w : World) (files : list File.t).

(** The callback [uploadFiles] runs on each uploaded file. *)
Local Abbreviation each_file :=
  (fun file : File.t =>
     appendStatusElement (File.id file) ;;
     startPipelinePolling (File.id file) ;;
     mret tt).

Lemma each_file_world (file : File.t) w :
  each_file file w
  = (Normal tt,
     {| timers := {[next_timer w]} ∪ timers w;
        next_timer := S (next_timer w);
        activePollers := <[File.id file := next_timer w]> (activePollers w);
        anchors := match anchors w !! File.id file with
                   | Some _ => anchors w
                   | None => <[File.id file := ocr_processing_html]> (anchors w)
                   end;
        calls := calls w |}).
Proof.
  cbv beta iota delta
    [mbind mret M_bind M_ret bind ret appendStatusElement startPipelinePolling
     setInterval setPoller].
  by destruct (anchors w !! File.id file).
Qed.

Lemma forEach_cons_world (file : File.t) files w :
  forEach (file :: files) each_file w
  = forEach files each_file (snd (each_file file w)).
Proof.
  change (forEach (file :: files) each_file w)
    with (bind (each_file file) (fun _ => forEach files each_file) w).
  unfold bind. by rewrite each_file_world.
Qed.

(** Anchors and registry after the loop. *)
Lemma forEach_file_page files :
  forall w,
    let w' := snd (forEach files each_file w) in
    fst (forEach files each_file w) = Normal tt
    /\ calls w' = calls w
    /\ (forall d, d ∉ File.id <$> files ->
          anchors w' !! d = anchors w !! d
          /\ activePollers w' !! d = activePollers w !! d)
    /\ (forall d h, anchors w' !! d = Some h ->
          anchors w !! d = Some h \/ h = ocr_processing_html)
    /\ (forall d h, anchors w !! d = Some h -> anchors w' !! d = Some h)
    /\ (forall file, file ∈ files -> is_Some (anchors w' !! File.id file)).
Proof.
  induction files as [| file files IH]; intros w.
  - cbv zeta. simpl. split_and!; try done.
    + intros d h Hd. by left.
    + intros file Hin. by apply elem_of_nil in Hin.
  - cbv zeta. rewrite forEach_cons_world.
    specialize (IH (snd (each_file file w))).
    destruct IH as (Hn & Hc & Hout & Hnew & Hkeep & Hin).
    rewrite each_file_world in Hn, Hc, Hout, Hnew, Hkeep, Hin |- *.
    simpl in Hn, Hc, Hout, Hnew, Hkeep, Hin |- *.
    assert (Hfirst : forall d h,
              anchors w !! d = Some h ->
              match anchors w !! File.id file with
              | Some _ => anchors w
              | None => <[File.id file := ocr_processing_html]> (anchors w)
              end !! d = Some h).
    { intros d h Hd. destruct (anchors w !! File.id file) eqn:Hf; [done |].
      rewrite lookup_insert_ne; [done |]. intros <-. congruence. }
    split_and!; try done.
    + intros d Hd. apply not_elem_of_cons in Hd as [Hne Hd].
      destruct (Hout d Hd) as [Ha Hp]. rewrite Ha, Hp. split.
      * destruct (anchors w !! File.id file); [done |].
        by apply lookup_insert_ne.
      * by apply lookup_insert_ne.
    + intros d h Hd. destruct (Hnew d h Hd) as [Hold | ->]; [| by right].
      destruct (anchors w !! File.id file) eqn:Hf; [by left |].
      destruct (decide (File.id file = d)) as [<- | Hne].
      * rewrite lookup_insert_eq in Hold. right. congruence.
      * rewrite lookup_insert_ne in Hold by done. by left.
    + intros d h Hd. by apply Hkeep, Hfirst.
    + intros f Hf. apply elem_of_cons in Hf as [-> | Hf]; [| by apply Hin].
      destruct (anchors w !! File.id file) as [h |] eqn:Hfile.
      * exists h. by apply Hkeep.
      * exists ocr_processing_html. apply Hkeep. apply lookup_insert_eq.
Qed.

(** Timers after the loop: one fresh handle per file, none cleared. *)
Lemma forEach_file_timers files :
  forall w,
    handles_fresh w ->
    let w' := snd (forEach files each_file w) in
    handles_fresh w'
    /\ next_timer w' = next_timer w + length files
    /\ (forall t, t ∈ timers w -> t ∈ timers w')
    /\ (forall file, file ∈ files ->
          exists t, activePollers w' !! File.id file = Some t
                    /\ t ∈ timers w' /\ next_timer w <= t).
Proof.
  induction files as [| file files IH]; intros w Hfresh.
  - cbv zeta. simpl. split_and!; try done; try lia.
    intros file Hin. by apply elem_of_nil in Hin.
  - cbv zeta. rewrite forEach_cons_world.
    assert (Hfresh1 : handles_fresh (snd (each_file file w))).
    { rewrite each_file_world. intros t. simpl.
      rewrite elem_of_union, elem_of_singleton. intros [-> | Ht]; [lia |].
      specialize (Hfresh t Ht). lia. }
    specialize (IH (snd (each_file file w)) Hfresh1).
    destruct IH as (Hf & Hn & Hkeep & Hreg).
    destruct (forEach_file_page files (snd (each_file file w)))
      as (_ & _ & Hout & _).
    rewrite each_file_world in Hf, Hn, Hkeep, Hreg, Hout |- *.
    simpl in Hf, Hn, Hkeep, Hreg, Hout |- *.
    split_and!.
    + exact Hf.
    + lia.
    + intros t Ht. apply Hkeep. rewrite elem_of_union. by right.
    + intros f Hin. apply elem_of_cons in Hin as [-> | Hin].
      * destruct (decide (File.id file ∈ File.id <$> files)) as [Hdup | Hnodup].
        -- apply list_elem_of_fmap in Hdup as (f' & Hid & Hf').
           destruct (Hreg f' Hf') as (t & Hp & Ht & Hle).
           exists t. split_and!; [| done | lia].
           etrans; [| exact Hp]. f_equal. exact Hid.
        -- destruct (Hout _ Hnodup) as [_ Hp].
           exists (next_timer w). rewrite Hp, lookup_insert_eq.
           split_and!; [done | | lia].
           apply Hkeep. rewrite elem_of_union, elem_of_singleton. by left.
      * destruct (Hreg f Hin) as (t & Hp & Ht & Hle).
        exists t. split_and!; [done | done | lia].
Qed.

Lemma try_catch_normal (body handler : M unit) w :
  fst (body w) = Normal tt -> try_catch body handler w = body w.
Proof.
  unfold try_catch. destruct (body w) as [[[] |] w']; [done | discriminate].
Qed.

(** On an accepted upload the response is the loop over the files, run on
    the emptied list. *)
Lemma uploadFiles_response_accepted files w :
  uploadFiles_response (UploadBody (Value (Value files))) w
  = forEach files each_file (snd (clearUploaded w)).
Proof.
  destruct (forEach_file_page files (snd (clearUploaded w))) as (Hn & _).
  unfold uploadFiles_response. rewrite try_catch_normal; [reflexivity | exact Hn].
Qed.

(** X9: after an accepted upload every returned file has its status
    element, with the OCR label, and a poller of its own on a timer that
    was not live before; no other document has an element; the timers that
    were live stay live; and one handle is taken for each file. *)
Theorem upload_starts_a_poller_per_file files w :
  handles_fresh w ->
  let w' := snd (uploadFiles_response (UploadBody (Value (Value files))) w) in
  (forall file, file ∈ files ->
     anchors w' !! File.id file = Some ocr_processing_html
     /\ exists t, activePollers w' !! File.id file = Some t
                  /\ t ∈ timers w' /\ t ∉ timers w)
  /\ (forall d, d ∉ File.id <$> files ->
        anchors w' !! d = None
        /\ activePollers w' !! d = activePollers w !! d)
  /\ (forall t, t ∈ timers w -> t ∈ timers w')
  /\ next_timer w' = next_timer w + length files
  /\ handles_fresh w'.
Proof.
  intros Hfresh.
  cbv zeta. rewrite uploadFiles_response_accepted.
  destruct (forEach_file_page files (snd (clearUploaded w)))
    as (_ & _ & Hout & Hnew & _ & Hin).
  destruct (forEach_file_timers files (snd (clearUploaded w)) Hfresh)
    as (Hf & Hn & Hkeep & Hreg).
  simpl in Hout, Hnew, Hin, Hf, Hn, Hkeep, Hreg.
  split_and!; try done.
  intros file Hfile. split.
  - destruct (Hin file Hfile) as [h Hh].
    destruct (Hnew _ _ Hh) as [Hold | ->]; [| done].
    by rewrite lookup_empty in Hold.
  - destruct (Hreg file Hfile) as (t & Hp & Ht & Hle).
    exists t. split_and!; [done | done |].
    intros Hold. specialize (Hfresh t Hold). lia.
Qed.

Lemma forEach_file_keeps_timers files :
  forall w t, t ∈ timers w -> t ∈ timers (snd (forEach files each_file w)).
Proof.
  induction files as [| file files IH]; intros w t Ht; [done |].
  rewrite forEach_cons_world. apply IH. rewrite each_file_world. simpl.
  rewrite elem_of_union. by right.
Qed.

(** Whatever the response, the anchor of a document that is not in it has
    left the page. *)
Lemma upload_removes_other_anchors (r : upload_result) w d :
  d ∉ uploaded_ids r ->
  let w' := snd (uploadFiles_response r w) in
  anchors w' !! d = None
  /\ activePollers w' !! d = activePollers w !! d
  /\ (forall t, t ∈ timers w -> t ∈ timers w').
Proof.
  intros Hd.
  destruct r as [| [| | [| | files]]]; try (by split_and!).
  cbv zeta.
  destruct (forEach_file_page files (snd (clearUploaded w)))
    as (Hn & _ & Hout & _).
  rewrite uploadFiles_response_accepted.
  destruct (Hout d Hd) as [Ha Hp].
  split_and!; [by rewrite Ha | by rewrite Hp |].
  intros t Ht. by apply forEach_file_keeps_timers.
Qed.

(** X10: an upload, accepted or failed, empties the status area but does
    not stop the pollers of earlier uploads: the timer of such a poller is
    still live after the upload, its registry entry is still there and its
    anchor is gone.  Its next answered tick finds no anchor and only clears
    the timer, so the entry stays in [activePollers] and neither a label
    nor the dashboard is updated. *)
Theorem upload_abandons_earlier_pollers (r : upload_result) w d t data :
  d ∉ uploaded_ids r ->
  activePollers w !! d = Some t ->
  t ∈ timers w ->
  let w' := snd (uploadFiles_response r w) in
  let w'' := snd (poll_tick d t (Body data) w') in
  t ∈ timers w'
  /\ activePollers w' !! d = Some t
  /\ anchors w' !! d = None
  /\ poll_tick d t (Body data) w' = clearInterval t w'
  /\ (t ∉ timers w'')
  /\ activePollers w'' !! d = Some t
  /\ label_writes w'' = label_writes w'
  /\ refreshes w'' = refreshes w'.
Proof.
  intros Hd Hreg Hlive. cbv zeta.
  destruct (upload_removes_other_anchors r w d Hd) as (Ha & Hp & Hkeep).
  rewrite poll_tick_anchor_gone by done.
  split_and!.
  - by apply Hkeep.
  - by rewrite Hp.
  - exact Ha.
  - reflexivity.
  - simpl. rewrite elem_of_difference, elem_of_singleton. tauto.
  - simpl. by rewrite Hp.
  - unfold label_writes, clearInterval, record. simpl.
    rewrite List.filter_app, length_app. simpl. lia.
  - unfold refreshes, clearInterval, record. simpl.
    rewrite List.filter_app, length_app. simpl. lia.
Qed.

End UploadProperties.

(** ** The warnings on the page *)

Section PanelProperties.

Context `{Host}.

Local Open Scope list_scope.






End PanelProperties.

(** ** The table rows *)

Section TableProperties.

Context `{Host}.

Local Open Scope list_scope.

Lemma fold_push {A : Type} (f : nat -> A) (l : list nat) (init : list A) :
  fold_left (fun acc i => acc ++ [f i]) l init = init ++ (f <$> l).
Proof.
  revert init. induction l as [| i l IH]; intros init; simpl.
  - by rewrite app_nil_r.
  - rewrite IH. by rewrite <- app_assoc.
Qed.

Lemma fold_same {A B : Type} (f g : A -> B -> A) (l : list B) (a : A) :
  (forall a b, f a b = g a b) -> fold_left f l a = fold_left g l a.
Proof.
  intros Hfg. revert a. induction l as [| b l IH]; intros a; [reflexivity |].
  simpl. by rewrite Hfg, IH.
Qed.

Lemma historical_opIncome_map (gp sga : list (slot float)) (n : nat) :
  historical_opIncome gp sga n
  = (fun i => match index gp i, index sga i with
              | Value gp_i, Value sga_i => Value (gp_i - sga_i)%float
              | _, _ => Null
              end) <$> seq 0 n.
Proof. unfold historical_opIncome, for_upto. by rewrite fold_push. Qed.

Lemma row_cells_length (sources : gmap string string) (n : nat)
    (arr : list (slot float)) fmt sourceKey :
  length (row_cells sources n arr fmt sourceKey) = n `min` length arr.
Proof. unfold row_cells. by rewrite length_imap, length_take. Qed.

(** X12: the Operating Income row of the historical table has one cell
    for each year, whatever the lengths of the gross profit and SG&A
    arrays; the cell of year [i] shows their difference, tagged with the
    source of [sga_hist], and [--] when either entry is missing or null.
    Every other row has [min n (length arr)] cells. *)
Theorem operating_income_cells (sources : gmap string string)
    (gp sga : list (slot float)) (n i : nat) :
  i < n ->
  let cells :=
    row_cells sources n (historical_opIncome gp sga n) moneyCell (Value "sga_hist") in
  length cells = n
  /\ cells !! i
     = Some (moneyCell
               (match index gp i, index sga i with
                | Value gp_i, Value sga_i => Value (gp_i - sga_i)%float
                | _, _ => Null
                end)
               (getSource (Value sources) "sga_hist" i))
  /\ (nullish (index gp i) || nullish (index sga i) = true ->
      cells !! i = Some "<td>--</td>"%string)
  /\ (forall arr fmt key,
        length (row_cells sources n arr fmt key) = n `min` length arr).
Proof.
  intros Hi. cbv zeta.
  assert (Hlen : length (historical_opIncome gp sga n) = n).
  { by rewrite historical_opIncome_map, length_fmap, length_seq. }
  assert (Hcell :
    row_cells sources n (historical_opIncome gp sga n) moneyCell (Value "sga_hist") !! i
    = Some (moneyCell
              (match index gp i, index sga i with
               | Value gp_i, Value sga_i => Value (gp_i - sga_i)%float
               | _, _ => Null
               end)
              (getSource (Value sources) "sga_hist" i))).
  { unfold row_cells. rewrite list_lookup_imap, take_ge by lia.
    rewrite historical_opIncome_map, list_lookup_fmap.
    rewrite lookup_seq_lt by done. reflexivity. }
  split_and!.
  - rewrite row_cells_length, Hlen. lia.
  - exact Hcell.
  - intros Hnull. rewrite Hcell.
    by destruct (index gp i), (index sga i).
  - intros arr fmt key. apply row_cells_length.
Qed.

Lemma projection_revGrowth_map (rev : list (slot float)) (n : nat) :
  projection_revGrowth rev n
  = Null :: ((fun i =>
                match index rev i, index rev (i - 1) with
                | Value r, Value r' =>
                    if truthy_num (Value r) && truthy_num (Value r')
                    then Value ((r - r') / r')%float else Null
                | _, _ => Null
                end) <$> seq 1 (n - 1)).
Proof.
  unfold projection_revGrowth, for_range.
  match goal with
  | |- _ = Null :: (?F <$> ?l) =>
      change (Null :: (F <$> l)) with ([Null] ++ (F <$> l));
      rewrite <- (fold_push F l [Null])
  end.
  apply fold_same. intros acc i.
  destruct (index rev i) as [| | r]; try reflexivity;
    destruct (index rev (i - 1)) as [| | r']; try reflexivity;
    unfold truthy_num, is_not_zero;
    try (by rewrite ?andb_false_r).
  destruct (negb (PrimFloat.eqb r 0) && PrimFloat.eqb r r); [| reflexivity].
  destruct (PrimFloat.eqb r' 0); [reflexivity |].
  by destruct (PrimFloat.eqb r' r').
Qed.

(** X13: the revenue growth of the projections table has one entry for
    each year, the first of them null; the entry of a later year is the
    relative change when both revenues are numbers other than zero and
    NaN, and null otherwise, so it never divides by a zero revenue. *)
Theorem revenue_growth_entries (rev : list (slot float)) (n i : nat) :
  1 <= i < n ->
  let revGrowth := projection_revGrowth rev n in
  length revGrowth = n
  /\ index revGrowth 0 = Null
  /\ index revGrowth i
     = match index rev i, index rev (i - 1) with
       | Value r, Value r' =>
           if truthy_num (Value r) && truthy_num (Value r')
           then Value ((r - r') / r')%float else Null
       | _, _ => Null
       end
  /\ (truthy_num (index rev i) = false \/ truthy_num (index rev (i - 1)) = false ->
      index revGrowth i = Null).
Proof.
  intros [Hlo Hhi]. cbv zeta. rewrite projection_revGrowth_map.
  assert (Hat : forall f : nat -> slot float,
            index (Null :: (f <$> seq 1 (n - 1))) i = f i).
  { intros f. unfold index. destruct i as [| i]; [lia |]. simpl.
    rewrite list_lookup_fmap, lookup_seq_lt by lia. reflexivity. }
  split_and!.
  - simpl. rewrite length_fmap, length_seq. lia.
  - reflexivity.
  - apply Hat.
  - intros Hfalsy. rewrite Hat.
    destruct (index rev i) as [| | r], (index rev (i - 1)) as [| | r'];
      try reflexivity.
    destruct Hfalsy as [-> | ->]; [reflexivity |].
    by rewrite andb_false_r.
Qed.

End TableProperties.

(** ** The sign of an amount *)

Section MoneyProperties.

Context `{Host}.

Lemma float_abs_opp (v : float) : PrimFloat.abs (- v) = PrimFloat.abs v.
Proof.
  apply Prim2SF_inj. rewrite !abs_spec, opp_spec.
  by destruct (Prim2SF v).
Qed.

Lemma positive_float (v : float) :
  PrimFloat.ltb 0 v = true ->
  PrimFloat.eqb v 0 = false /\ PrimFloat.ltb v 0 = false
  /\ PrimFloat.eqb (- v) 0 = false /\ PrimFloat.ltb (- v) 0 = true.
Proof.
  intros Hpos. rewrite FloatAxioms.ltb_spec in Hpos.
  rewrite !FloatAxioms.eqb_spec, !FloatAxioms.ltb_spec, !opp_spec.
  change (Prim2SF 0) with (S754_zero false) in *.
  destruct (Prim2SF v) as [s | s | | s m e]; try discriminate Hpos;
    destruct s; try discriminate Hpos; by split_and!.
Qed.

(** X14: [fmtMoney] renders a negative amount as the rendering of its
    absolute value in parentheses. *)
Theorem fmtMoney_negative_in_parentheses (v : float) :
  PrimFloat.ltb 0 v = true ->
  fmtMoney (Value (- v)%float) = "(" ++ fmtMoney (Value v) ++ ")".
Proof.
  intros Hpos.
  destruct (positive_float v Hpos) as (Hz & Hneg & Hz' & Hneg').
  unfold fmtMoney. rewrite Hz, Hneg, Hz', Hneg', float_abs_opp.
  cbv zeta. rewrite !append_nil_l.
  destruct (PrimFloat.leb 1000 (PrimFloat.abs v)).
  - change ("M" ++ EmptyString) with "M". by rewrite !append_assoc.
  - change ("K" ++ EmptyString) with "K". by rewrite !append_assoc.
Qed.

End MoneyProperties.

(** * The further properties at work *)

Section Instances.

Local Open Scope list_scope.

(** The page with the pollers of documents 7 and 8 running. *)
Local Abbreviation two_pollers := (snd (startPipelinePolling 8 polling_page)).

(** Three ticks answered by a status still in progress, a failed fetch
    and a null body. *)
Local Abbreviation uneventful :=
  [ TimerFires; ResponseArrives (Body (Value still_processing));
    TimerFires; ResponseArrives FetchFailed;
    TimerFires; ResponseArrives (Body Null) ].

Lemma escapeHtml_no_angle_brackets_witness :
  escapeHtml (Value "<b>") = "&lt;b&gt;"
  /\ "&"%char ∈ list_ascii_of_string (escapeHtml (Value "<b>"))
  /\ "&"%char <> "<"%char /\ "&"%char <> ">"%char.
Proof.
  assert (Hin : "&"%char ∈ list_ascii_of_string (escapeHtml (Value "<b>")))
    by apply list_elem_of_here.
  split; [reflexivity |]. split; [exact Hin |].
  exact (escapeHtml_no_angle_brackets (Value "<b>") "&"%char Hin).
Defined.

Lemma escapeHtml_injective_witness :
  escapeHtml (Value "R&D <1>")
  = escapeHtml (Value (unescape_text "R&amp;D &lt;1&gt;"))
  /\ "R&D <1>" = unescape_text "R&amp;D &lt;1&gt;".
Proof.
  split; [reflexivity |].
  exact (escapeHtml_injective "R&D <1>" (unescape_text "R&amp;D &lt;1&gt;") eq_refl).
Defined.

Lemma poll_tick_leaves_other_pollers_witness :
  let w' := snd (poll_tick 7 1 (Body (Value finished)) two_pollers) in
  8 <> 7 /\ 2 <> 1
  /\ activePollers w' !! 7 = None
  /\ activePollers w' !! 8 = Some 2
  /\ (2 ∈ timers w' <-> 2 ∈ timers two_pollers).
Proof.
  assert (Hdoc : 8 <> 7) by lia. assert (Htimer : 2 <> 1) by lia.
  split; [exact Hdoc |]. split; [exact Htimer |]. split; [reflexivity |].
  exact (proj2 (poll_tick_leaves_other_pollers 7 1 (Body (Value finished))
                  two_pollers 8 2 Hdoc Htimer)).
Defined.

Lemma polling_goes_on_witness :
  forallb goes_on uneventful = true
  /\ exists s',
       run 7 1 (poller_at polling_page) uneventful = Some s'
       /\ 1 ∈ timers (world s')
       /\ activePollers (world s') = activePollers polling_page
       /\ is_Some (anchors (world s') !! 7)
       /\ refreshes (world s') = refreshes polling_page.
Proof.
  split; [reflexivity |].
  destruct (run 7 1 (poller_at polling_page) uneventful) as [s' |] eqn:Hrun.
  - exists s'. split; [reflexivity |].
    refine (polling_goes_on 7 1 uneventful (poller_at polling_page) s' eq_refl _ _ Hrun).
    + by eexists.
    + apply (bool_decide_eq_true_1 (1 ∈ timers polling_page)). by vm_compute.
  - vm_compute in Hrun. discriminate Hrun.
Defined.

Lemma refresh_for_each_terminal_answer_witness :
  forallb anchor_stays events_overlapping = true
  /\ is_Some (anchors polling_page !! 7)
  /\ exists s',
       run 7 1 (poller_at polling_page) events_overlapping = Some s'
       /\ refreshes (world s') = refreshes polling_page + 2
       /\ is_Some (anchors (world s') !! 7)
       /\ (1 ∉ timers (world s'))
       /\ activePollers (world s') !! 7 = None.
Proof.
  assert (Hanchor : is_Some (anchors polling_page !! 7)) by (by eexists).
  split; [reflexivity |]. split; [exact Hanchor |].
  destruct (run 7 1 (poller_at polling_page) events_overlapping) as [s' |] eqn:Hrun.
  - exists s'. split; [reflexivity |].
    pose proof (refresh_for_each_terminal_answer 7 1 events_overlapping
                  (poller_at polling_page) s' eq_refl Hanchor Hrun)
      as (Hcount & Hstays & Hstopped).
    split_and!; [exact Hcount | exact Hstays | exact (proj1 (Hstopped eq_refl))
                | exact (proj2 (Hstopped eq_refl))].
  - vm_compute in Hrun. discriminate Hrun.
Defined.

Lemma abandoned_poller_witness :
  anchors abandoned_page !! 7 = None
  /\ exists s',
       run 7 1 (poller_at abandoned_page)
           [TimerFires; ResponseArrives (Body (Value finished))] = Some s'
       /\ anchors (world s') !! 7 = None
       /\ label_writes (world s') = label_writes abandoned_page
       /\ refreshes (world s') = refreshes abandoned_page
       /\ activePollers (world s') = activePollers abandoned_page
       /\ 1 ∉ timers (world s').
Proof.
  split; [reflexivity |].
  destruct (run 7 1 (poller_at abandoned_page)
              [TimerFires; ResponseArrives (Body (Value finished))])
    as [s' |] eqn:Hrun.
  - exists s'. split; [reflexivity |].
    pose proof (abandoned_poller 7 1 _ (poller_at abandoned_page) s' eq_refl Hrun)
      as (Hanchor & Hlabels & Hrefreshes & Hregistry & Hcleared).
    split_and!; [exact Hanchor | exact Hlabels | exact Hrefreshes | exact Hregistry |].
    exact (Hcleared eq_refl).
  - vm_compute in Hrun. discriminate Hrun.
Defined.

Lemma poller_stops_with_dashboard_status_witness :
  is_Some (anchors polling_page !! 7)
  /\ 1 ∈ timers polling_page
  /\ _getOverallStatus (doc_of finished) = "completed"
  /\ 1 ∉ timers (snd (poll_tick 7 1 (Body (Value finished)) polling_page)).
Proof.
  assert (Hanchor : is_Some (anchors polling_page !! 7)) by (by eexists).
  assert (Hlive : 1 ∈ timers polling_page).
  { apply (bool_decide_eq_true_1 (1 ∈ timers polling_page)). by vm_compute. }
  split; [exact Hanchor |]. split; [exact Hlive |]. split; [reflexivity |].
  exact (proj2 (poller_stops_with_dashboard_status 7 1 finished polling_page
                  Hanchor Hlive)
           (or_introl eq_refl)).
Defined.

Lemma upload_starts_a_poller_per_file_witness :
  let w' := snd (uploadFiles_response (UploadBody (Value (Value two_files)))
                   upload_page) in
  handles_fresh upload_page
  /\ (forall t, t ∈ timers upload_page -> t ∈ timers w')
  /\ next_timer w' = 3
  /\ handles_fresh w'.
Proof.
  assert (Hfresh : handles_fresh upload_page).
  { intros id Hin. by apply not_elem_of_empty in Hin. }
  split; [exact Hfresh |].
  exact (proj2 (proj2 (upload_starts_a_poller_per_file two_files upload_page Hfresh))).
Defined.

Lemma upload_abandons_earlier_pollers_witness :
  let w' := snd (uploadFiles_response (UploadBody (Value (Value two_files)))
                   polling_page) in
  let w'' := snd (poll_tick 7 1 (Body (Value finished)) w') in
  (7 ∉ uploaded_ids (UploadBody (Value (Value two_files))))
  /\ activePollers polling_page !! 7 = Some 1
  /\ 1 ∈ timers polling_page
  /\ 1 ∈ timers w'
  /\ activePollers w' !! 7 = Some 1
  /\ anchors w' !! 7 = None
  /\ poll_tick 7 1 (Body (Value finished)) w' = clearInterval 1 w'
  /\ (1 ∉ timers w'')
  /\ activePollers w'' !! 7 = Some 1
  /\ label_writes w'' = label_writes w'
  /\ refreshes w'' = refreshes w'.
Proof.
  assert (Hnot : 7 ∉ uploaded_ids (UploadBody (Value (Value two_files)))).
  { intros Hin. simpl in Hin.
    repeat (apply elem_of_cons in Hin as [Heq | Hin]; [discriminate Heq |]).
    by apply elem_of_nil in Hin. }
  assert (Hlive : 1 ∈ timers polling_page).
  { apply (bool_decide_eq_true_1 (1 ∈ timers polling_page)). by vm_compute. }
  split; [exact Hnot |]. split; [reflexivity |]. split; [exact Hlive |].
  exact (upload_abandons_earlier_pollers (UploadBody (Value (Value two_files)))
           polling_page 7 1 (Value finished) Hnot eq_refl Hlive).
Defined.

Lemma operating_income_cells_witness :
  let cells :=
    row_cells {[ "sga_hist_1" := "derived" ]} 3
      (historical_opIncome [Value 1500%float; Value 2500%float] [Value 700%float; Null] 3)
      (@moneyCell reference_host) (Value "sga_hist") in
  1 < 3
  /\ length cells = 3
  /\ cells !! 1 = Some "<td>--</td>".
Proof.
  assert (Hyear : 1 < 3) by lia.
  split; [exact Hyear |].
  pose proof (@operating_income_cells reference_host {[ "sga_hist_1" := "derived" ]}
                [Value 1500%float; Value 2500%float] [Value 700%float; Null] 3 1 Hyear)
    as (Hlen & _ & Hnull & _).
  split; [exact Hlen |]. exact (Hnull eq_refl).
Defined.

Lemma revenue_growth_entries_witness :
  let revGrowth :=
    projection_revGrowth [Value 100%float; Value 0%float; Value 50%float] 3 in
  1 <= 2 < 3
  /\ length revGrowth = 3
  /\ index revGrowth 0 = Null
  /\ index revGrowth 2 = Null.
Proof.
  assert (Hyear : 1 <= 2 < 3) by lia.
  split; [exact Hyear |].
  pose proof (revenue_growth_entries
                [Value 100%float; Value 0%float; Value 50%float] 3 2 Hyear)
    as (Hlen & Hfirst & _ & Hnull).
  split; [exact Hlen |]. split; [exact Hfirst |].
  exact (Hnull (or_intror eq_refl)).
Defined.

Lemma fmtMoney_negative_in_parentheses_witness :
  PrimFloat.ltb 0 1500 = true
  /\ @fmtMoney reference_host (Value (- 1500)%float)
     = ("(" ++ @fmtMoney reference_host (Value 1500%float) ++ ")")%string.
Proof.
  split; [reflexivity |].
  exact (@fmtMoney_negative_in_parentheses reference_host 1500%float eq_refl).
Defined.

End Instances.
